(** * auto_arch: validated fields, the profile and the curses front end

    A shallow embedding of [auto_arch.py]: the message queue, the [Field]
    class with its validators, the [Profile] class with [dump_profile] and
    [load_profile], and the [CursesApp] session with [select].

    Conventions of the embedding.
    - A Python [str] is a [string]; one [ascii] stands for one code point
      below 256, classified as the Unicode character database classifies
      U+0000..U+00FF.
    - A Python [int] is a [Z]; [len] is [String.length] or [List.length].
    - A function that only publishes messages returns them next to its
      result ([Emit]); a function that mutates more takes and returns the
      state it mutates. *)

From Stdlib Require Import String Ascii List ZArith NArith Bool Lia.
From Stdlib Require Import DecimalString.
Import ListNotations.

Local Open Scope list_scope.
Local Open Scope string_scope.

(** ** Built-in string methods used by the program *)

Module Str.

Definition code (c : ascii) : N := N_of_ascii c.

Definition between (lo hi : N) (c : ascii) : bool :=
  ((lo <=? code c) && (code c <=? hi))%N.

Definition at_code (n : N) (c : ascii) : bool := (code c =? n)%N.

(** Characters with a numeric value: the digits, the superscripts
    U+00B2, U+00B3, U+00B9 and the fractions U+00BC..U+00BE. *)
Definition numeric (c : ascii) : bool :=
  between 48 57 c || at_code 178 c || at_code 179 c || at_code 185 c || between 188 190 c.

(** General categories Lu, Ll and Lo. *)
Definition alpha (c : ascii) : bool :=
  between 65 90 c || between 97 122 c || at_code 170 c || at_code 181 c || at_code 186 c
  || between 192 214 c || between 216 246 c || between 248 255 c.

Definition upper (c : ascii) : bool :=
  between 65 90 c || between 192 214 c || between 216 222 c.

Definition lower (c : ascii) : bool :=
  between 97 122 c || at_code 170 c || at_code 181 c || at_code 186 c
  || between 223 246 c || between 248 255 c.

(** Not printable: the controls, U+00A0 and U+00AD. *)
Definition printable (c : ascii) : bool :=
  negb (between 0 31 c || between 127 160 c || at_code 173 c).

Definition ascii7 (c : ascii) : bool := (code c <? 128)%N.

Definition chars (s : string) : list ascii := list_ascii_of_string s.

(** [bool(s)]: a string is true when it is not empty. *)
Definition truth (s : string) : bool :=
  match s with EmptyString => false | String _ _ => true end.

(** [s.isnumeric()]: at least one character, all of them numeric. *)
Definition isnumeric (s : string) : bool :=
  truth s && forallb numeric (chars s).

(** [s.isalnum()]: at least one character, each alphabetic or numeric. *)
Definition isalnum (s : string) : bool :=
  truth s && forallb (fun c => alpha c || numeric c) (chars s).

(** [s.islower()]: no uppercase character and at least one lowercase one. *)
Definition islower (s : string) : bool :=
  negb (existsb upper (chars s)) && existsb lower (chars s).

Definition isprintable (s : string) : bool := forallb printable (chars s).

Definition isascii (s : string) : bool := forallb ascii7 (chars s).

(** [s.replace(old, "")] for a one-character [old], the only use the
    program makes of [replace]. *)
Fixpoint replace (old : ascii) (s : string) : string :=
  match s with
  | EmptyString => EmptyString
  | String c s' =>
      if Ascii.eqb c old then replace old s' else String c (replace old s')
  end.

(** [s.startswith(p)]. *)
Definition startswith (p s : string) : bool := String.prefix p s.

Definition len (s : string) : nat := String.length s.

(** The line boundaries of [splitlines] and the white space of [split]. *)
Definition linebreak (c : ascii) : bool :=
  between 10 13 c || between 28 30 c || at_code 133 c.

Definition space (c : ascii) : bool :=
  between 9 13 c || between 28 32 c || at_code 133 c || at_code 160 c.

(** [s.splitlines()]; [cur] is the line being read. A carriage return
    followed by a line feed is one boundary. *)
Fixpoint splitlines_from (cur s : string) : list string :=
  match s with
  | EmptyString => if truth cur then [cur] else []
  | String c s' =>
      if linebreak c then
        match s' with
        | String c' s'' =>
            if at_code 13 c && at_code 10 c'
            then cur :: splitlines_from EmptyString s''
            else cur :: splitlines_from EmptyString s'
        | EmptyString => cur :: splitlines_from EmptyString s'
        end
      else splitlines_from (cur ++ String c EmptyString) s'
  end.

Definition splitlines (s : string) : list string :=
  splitlines_from EmptyString s.

(** [s.split()]: the maximal runs of characters that are not white. *)
Fixpoint split_from (cur s : string) : list string :=
  match s with
  | EmptyString => if truth cur then [cur] else []
  | String c s' =>
      if space c then
        if truth cur then cur :: split_from EmptyString s'
        else split_from EmptyString s'
      else split_from (cur ++ String c EmptyString) s'
  end.

Definition split (s : string) : list string := split_from EmptyString s.

(** [str(n)] for an integer. *)
Definition of_int (n : Z) : string := NilZero.string_of_int (Z.to_int n).

End Str.

(** ** Messages and the log queue *)

Module Message_Level.
Inductive t : Set := success | error | warning | info | verbose.
End Message_Level.

Record Message : Set := { raw : string; level : Message_Level.t }.

(** A computation that publishes messages: its result and the messages it
    put on the queue, oldest first. *)
Definition Emit (A : Type) : Type := (A * list Message)%type.

Definition ret {A : Type} (a : A) : Emit A := (a, []).

Definition bind {A B : Type} (m : Emit A) (k : A -> Emit B) : Emit B :=
  let '(a, out1) := m in
  let '(b, out2) := k a in
  (b, out1 ++ out2)%list.

Notation "m ;; k" := (bind m (fun _ => k))
  (at level 61, right associativity).
Notation "x <- m ;; k" := (bind m (fun x => k))
  (at level 61, m at next level, right associativity).

Definition put (m : Message) : Emit unit := (tt, [m]).

Definition success (msg : string) : Emit unit :=
  put {| raw := msg; level := Message_Level.success |}.

Definition error (msg : string) : Emit unit :=
  put {| raw := "  [Error] " ++ msg ++ "."; level := Message_Level.error |}.

Definition warning (msg : string) : Emit unit :=
  put {| raw := "[Warning] " ++ msg ++ "."; level := Message_Level.warning |}.

Definition info (msg : string) : Emit unit :=
  put {| raw := "   [Info] " ++ msg ++ "."; level := Message_Level.info |}.

Definition verbose (msg : string) : Emit unit :=
  put {| raw := "[Verbose] " ++ msg ++ "."; level := Message_Level.verbose |}.

(** ** Values held by fields and read from a profile document *)

Inductive Value : Set :=
| VNone
| VBool (b : bool)
| VInt (n : Z)
| VStr (s : string)
| VOther (text : string).
(** [VOther] is any other object (a float, a list, a dict), kept by the
    text [str] gives for it. *)

(** [str(value)]. *)
Definition str (v : Value) : string :=
  match v with
  | VNone => "None"
  | VBool true => "True"
  | VBool false => "False"
  | VInt n => Str.of_int n
  | VStr s => s
  | VOther text => text
  end.

(** ** class Field *)

Module Field.

Definition default_validator (_ : string) : Emit bool := ret true.

Definition numeric_validator (value : string) : Emit bool :=
  if negb (Str.isnumeric value) then
    error ("The given value is not numeric: " ++ value) ;; ret false
  else ret true.

Definition boot_label_validator (value : string) : Emit bool :=
  if negb (Str.truth value) then
    error "Boot labels must contain at least one character" ;; ret false
  else if negb (Str.isprintable value && Str.isascii value) then
    error "Boot labels cannot contain non-printable or non-ascii characters" ;;
    ret false
  else ret true.

Definition hostname_validator (value : string) : Emit bool :=
  if negb (Str.truth value) then
    error "Hostnames must contain at least one character" ;; ret false
  else if (64 <? Str.len value)%nat then
    error "Hostnames cannot be longer than 64 characters" ;; ret false
  else if negb (Str.islower (Str.replace "-" value)
                && Str.isalnum (Str.replace "-" value)) then
    error "Hostnames may only contain lowercase letters, numbers, and hyphens" ;;
    ret false
  else ret true.

Definition name_validator (value : string) : Emit bool :=
  if negb (Str.truth value) then
    error "Names must contain at least one character" ;; ret false
  else if Str.isnumeric value then
    error "Names cannot be entirely numeric" ;; ret false
  else if Str.startswith "-" value then
    error "Names cannot start with a hyphen" ;; ret false
  else if (32 <? Str.len value)%nat then
    error "Names cannot be longer than 32 characters" ;; ret false
  else if negb (Str.isalnum (Str.replace "_" (Str.replace "-" value))) then
    error "Names may only contain letters, numbers, underscores, and hyphens" ;;
    ret false
  else ret true.

Definition password_validator (value : string) : Emit bool :=
  if negb (Str.truth value) then
    error "Passwords must contain at least one character" ;; ret false
  else if negb (Str.isprintable value && Str.isascii value) then
    error "Passwords cannot contain non-printable or non-ascii characters" ;;
    ret false
  else ret true.

(** The state of a Field object. [_types] is stored by [__init__] and never
    read, so it carries no behaviour and is left out. *)
Record t : Type := {
  _value : Value;
  _validator : string -> Emit bool
}.

Definition __init__ (default_value : Value)
    (validator : string -> Emit bool) : t :=
  {| _value := default_value; _validator := validator |}.

Definition get (self : t) : Value := _value self.

Definition get_str (self : t) : string :=
  match _value self with
  | VNone => ""
  | v => str v
  end.

(** [set] mutates [self]: the object after the call is returned next to the
    result. *)
Definition set (self : t) (value : Value) : Emit (bool * t) :=
  ok <- _validator self (str value) ;;
  if ok then
    ret (true, {| _value := value; _validator := _validator self |})
  else ret (false, self).

End Field.

(** ** class Profile *)

Module Profile.

(** The ten attributes assigned in the class body. Each is bound, once and
    for the whole process, to the [Field] object its right-hand side
    creates; a [name] therefore also identifies that object. *)
Inductive name : Set :=
| network_install
| min_device_bytes
| device
| boot_label
| time_zone
| hostname
| root_password
| username
| user_password
| sudo_group.

Definition names : list name :=
  [network_install; min_device_bytes; device; boot_label; time_zone;
   hostname; root_password; username; user_password; sudo_group].

Definition key (n : name) : string :=
  match n with
  | network_install => "network_install"
  | min_device_bytes => "min_device_bytes"
  | device => "device"
  | boot_label => "boot_label"
  | time_zone => "time_zone"
  | hostname => "hostname"
  | root_password => "root_password"
  | username => "username"
  | user_password => "user_password"
  | sudo_group => "sudo_group"
  end.

Definition of_key (k : string) : option name :=
  find (fun n => String.eqb (key n) k) names.

Definition name_eqb (a b : name) : bool := String.eqb (key a) (key b).

(** The class body, lines 364-373: the default value and the validator
    each [Field] object is created with. *)
Definition default (n : name) : Value :=
  match n with
  | network_install => VBool true
  | min_device_bytes => VInt 10000000000
  | device => VNone
  | boot_label => VStr "Arch Linux"
  | time_zone => VStr "America/Denver"
  | hostname => VStr "arch"
  | root_password => VStr "root"
  | username => VStr "main"
  | user_password => VStr "main"
  | sudo_group => VStr "wheel"
  end.

Definition validator (n : name) : string -> Emit bool :=
  match n with
  | network_install => Field.default_validator
  | min_device_bytes => Field.numeric_validator
  | device => Field.default_validator
  | boot_label => Field.boot_label_validator
  | time_zone => Field.default_validator
  | hostname => Field.hostname_validator
  | root_password => Field.password_validator
  | username => Field.name_validator
  | user_password => Field.password_validator
  | sudo_group => Field.name_validator
  end.

(** The state of the class namespace. Nothing assigns [_validator] after
    [Field.__init__], so what varies is the [_value] of each of the ten
    objects. *)
Definition namespace : Type := name -> Value.

Definition body : namespace := default.

(** The [Field] object bound to [n]. *)
Definition field (ns : namespace) (n : name) : Field.t :=
  {| Field._value := ns n; Field._validator := validator n |}.

Definition update (ns : namespace) (n : name) (v : Value) : namespace :=
  fun m => if name_eqb m n then v else ns m.

(** [@dataclass] makes a field of every class attribute that carries a
    type annotation. No line of the class body is annotated, so the
    dataclass has no field. *)
Definition __dataclass_fields__ : list name := [].

(** An instance: its [__dict__], from attribute name to the [Field] object
    the attribute refers to. *)
Definition t : Set := list (string * name).

(** [Profile()]: the generated [__init__] takes no argument and sets no
    attribute. *)
Definition __init__ : t := [].

Fixpoint lookup (k : string) (d : t) : option name :=
  match d with
  | [] => None
  | (k', n) :: d' => if String.eqb k' k then Some n else lookup k d'
  end.

(** What [getattr(profile, key)] finds. *)
Inductive attribute : Set :=
| AField (n : name)
| AObject.
(** [AObject]: an attribute that is no [Field] (a method of [object] or of
    the dataclass, [__dict__], [__doc__], ...). *)

Section Attributes.

(** The names of the attributes a [Profile] instance has besides the ten
    of the class body; the set depends on the interpreter. *)
Variable other_attr : string -> bool.

(** The instance [__dict__] first, then the class. *)
Definition getattr (profile : t) (k : string) : option attribute :=
  match lookup k profile with
  | Some n => Some (AField n)
  | None =>
      match of_key k with
      | Some n => Some (AField n)
      | None => if other_attr k then Some AObject else None
      end
  end.

Definition hasattr (profile : t) (k : string) : bool :=
  match getattr profile k with Some _ => true | None => false end.

End Attributes.

(** [profile.n] for an attribute [n] of the class body: the [Field]
    object it refers to. *)
Definition attr (profile : t) (n : name) : name :=
  match lookup (key n) profile with
  | Some m => m
  | None => n
  end.

Definition setattr (profile : t) (k : string) (n : name) : t :=
  (k, n) :: profile.

(** [asdict(profile)]: one entry per dataclass field, with a copy of
    what the attribute of that name refers to. *)
Definition asdict (ns : namespace) (profile : t) : list (string * Field.t) :=
  map (fun n => (key n, field ns (attr profile n))) __dataclass_fields__.

End Profile.

(** ** The curses library, as far as the program calls it *)

Module curses.

Inductive Window : Set := screen | border | win.

Inductive Color : Set :=
| COLOR_BLACK | COLOR_RED | COLOR_GREEN | COLOR_YELLOW | COLOR_CYAN
| COLOR_WHITE.

(** [CursesApp.ColorIndex]. *)
Module ColorIndex.
Inductive t : Set :=
| normal | highlight | success | error | warning | info | verbose.
End ColorIndex.

(** A call into the library, with the window it is made on. *)
Inductive Call : Set :=
| initscr
| start_color
| init_pair (i : ColorIndex.t) (fg bg : Color)
| noecho
| cbreak
| echo
| nocbreak
| endwin
| curs_set (visibility : Z)
| newwin (w : Window) (nlines ncols begin_y begin_x : Z)
| keypad (w : Window) (flag : bool)
| clear (w : Window)
| refresh (w : Window)
| draw_border (w : Window)
| bkgdset (w : Window) (c : ColorIndex.t)
| addstr (w : Window) (s : string).

End curses.

(** ** The process state *)

(** What a path of the file system holds. *)
Inductive Json : Set :=
| JObject (items : list (string * Value))
| JOther.
(** [JOther]: a document whose top level is no object. *)

Inductive File : Set :=
| Missing
| Denied
| Garbage
| Document (doc : Json).
(** [Missing]: nothing there, and a file may be created; [Denied]: [open]
    raises, for reading and for writing; [Garbage]: a file [json.load]
    rejects; [Document]: a file [json.load] accepts. *)

Record World : Type := {
  log : list Message;
  log_file : option (list string);
  fields : Profile.namespace;
  fs : string -> File;
  commands : list string -> option string;
  LINES : Z;
  COLS : Z;
  calls : list curses.Call
}.
(** [log]: the global queue, oldest message first. [log_file]: the lines
    written to the log file, when one is open. [fields]: the values held
    by the [Field] objects of class [Profile]. [commands]: what [get] returns for an
    external command line. [LINES], [COLS]: the size of the terminal.
    [calls]: the curses calls that have completed, oldest first. *)

Definition set_log (l : list Message) (w : World) : World :=
  {| log := l; log_file := log_file w; fields := fields w; fs := fs w;
     commands := commands w; LINES := LINES w; COLS := COLS w;
     calls := calls w |}.

Definition set_log_file (f : option (list string)) (w : World) : World :=
  {| log := log w; log_file := f; fields := fields w; fs := fs w;
     commands := commands w; LINES := LINES w; COLS := COLS w;
     calls := calls w |}.

Definition set_fields (ns : Profile.namespace) (w : World) : World :=
  {| log := log w; log_file := log_file w; fields := ns; fs := fs w;
     commands := commands w; LINES := LINES w; COLS := COLS w;
     calls := calls w |}.

Definition set_fs (disk : string -> File) (w : World) : World :=
  {| log := log w; log_file := log_file w; fields := fields w; fs := disk;
     commands := commands w; LINES := LINES w; COLS := COLS w;
     calls := calls w |}.

Definition call (cs : list curses.Call) (w : World) : World :=
  {| log := log w; log_file := log_file w; fields := fields w; fs := fs w;
     commands := commands w; LINES := LINES w; COLS := COLS w;
     calls := (calls w ++ cs)%list |}.

(** The state a process starts in: an empty queue and the class body just
    executed. *)
Definition boot (disk : string -> File)
    (cmds : list string -> option string) (nlines ncols : Z) : World :=
  {| log := []; log_file := None; fields := Profile.body; fs := disk;
     commands := cmds; LINES := nlines; COLS := ncols; calls := [] |}.

(** Run a publishing computation against the global queue. *)
Definition emit {A : Type} (m : Emit A) (w : World) : A * World :=
  (fst m, set_log (log w ++ snd m)%list w).

Definition write_file (path : string) (f : File) (w : World) : World :=
  set_fs (fun p => if String.eqb p path then f else fs w p) w.

Definition get_next_log (w : World) : option Message * World :=
  match log w with
  | [] => (None, w)
  | msg :: rest =>
      (Some msg,
       set_log_file
         (option_map
            (fun written =>
               (written ++ [String.append (raw msg) (String "010" "")])%list)
            (log_file w))
         (set_log rest w))
  end.

(** [field.set(value)] on the [Field] object [n] of the class. *)
Definition Field_set (n : Profile.name) (value : Value) (w : World)
    : bool * World :=
  let '((ok, self), out) := Field.set (Profile.field (fields w) n) value in
  (ok, set_fields (Profile.update (fields w) n (Field.get self))
         (set_log (log w ++ out)%list w)).

Definition dump_profile (profile : Profile.t) (path : string) (w : World)
    : bool * World :=
  let json_profile :=
    map (fun kv => (fst kv, Field.get (snd kv)))
        (Profile.asdict (fields w) profile) in
  match fs w path with
  | Denied => emit (error ("Failed to write the profile to " ++ path) ;;
                    ret false) w
  | _ => (true, write_file path (Document (JObject json_profile)) w)
  end.

Inductive Exception : Set := TypeError | AttributeError | IndexError.

Section Load.

Variable other_attr : string -> bool.

(** The [for] loop of [load_profile]: the profile it reaches, or the
    exception that leaves it, with the state at that point. *)
Fixpoint load_items (items : list (string * Value)) (profile : Profile.t)
    (w : World) : (Profile.t + Exception) * World :=
  match items with
  | [] => (inl profile, w)
  | (k, value) :: rest =>
      if Profile.hasattr other_attr profile k then
        match Profile.getattr other_attr profile k with
        | Some (Profile.AField n) =>
            let '(ok, w1) := Field_set n value w in
            if ok then load_items rest (Profile.setattr profile k n) w1
            else
              (* the argument of [warning] ends in [+ value] *)
              match value with
              | VStr s =>
                  let '(_, w2) :=
                    emit (warning
                      ("The given value is invalid for the cooresponding field:"
                       ++ String "010" (String "009" "field: ") ++ k
                       ++ String "010" (String "009" "value: ") ++ s)) w1 in
                  load_items rest (Profile.setattr profile k n) w2
              | _ => (inr TypeError, w1)
              end
        | _ =>
            (* [field.set] on an object that is no [Field] *)
            (inr AttributeError, w)
        end
      else
        let '(_, w1) :=
          emit (warning ("Unrecognized field in profile: " ++ k)) w in
        load_items rest profile w1
  end.

Definition load_profile (path : string) (w : World)
    : option Profile.t * World :=
  let profile := Profile.__init__ in
  let failed w' :=
    let '(_, w'') :=
      emit (error ("Failed to read the profile from " ++ path)) w' in
    (None, w'') in
  match fs w path with
  | Document (JObject items) =>
      match load_items items profile w with
      | (inl profile', w') => (Some profile', w')
      | (inr _, w') => failed w'
      end
  | _ => failed w
  end.

End Load.

(** ** class CursesApp *)

Module CursesApp.

Import curses.

(** The attributes [__init__] sets once the terminal is known to be large
    enough; on the early return they do not exist. *)
Record Geometry : Set := {
  lines : Z;
  cols : Z;
  line_origin : Z;
  col_origin : Z
}.

Record t : Set := {
  good : bool;
  clean : bool;
  geometry : option Geometry
}.

Definition min_lines : Z := 12.
Definition min_cols : Z := 44.
Definition max_border_lines : Z := 3.
Definition max_border_cols : Z := 10.

Definition _hide_cursor : list Call := [curs_set 0].
Definition _show_cursor : list Call := [curs_set 1].

Definition _init_colors : list Call :=
  [start_color;
   init_pair ColorIndex.normal COLOR_WHITE COLOR_BLACK;
   init_pair ColorIndex.highlight COLOR_BLACK COLOR_WHITE;
   init_pair ColorIndex.success COLOR_GREEN COLOR_BLACK;
   init_pair ColorIndex.error COLOR_RED COLOR_BLACK;
   init_pair ColorIndex.warning COLOR_YELLOW COLOR_BLACK;
   init_pair ColorIndex.info COLOR_CYAN COLOR_BLACK;
   init_pair ColorIndex.verbose COLOR_WHITE COLOR_BLACK].

(** [_set_color(color, window)]; without a window it is [self.win]. *)
Definition _set_color (color : ColorIndex.t) (window : option Window)
    : list Call :=
  match window with
  | Some w => [bkgdset w color]
  | None => [bkgdset win color]
  end.

Definition cleanup (self : t) (w : World) : t * World :=
  let self := {| good := false; clean := clean self;
                 geometry := geometry self |} in
  if negb (clean self) then
    ({| good := good self; clean := true; geometry := geometry self |},
     call ([keypad screen false] ++ _show_cursor ++ [echo; nocbreak; endwin])
          w)
  else (self, w).

(** [int(a / 2)] for the integers the constructor divides: the quotient
    truncated toward zero. *)
Definition half (a : Z) : Z := Z.quot a 2.

(** The constructor. Its [atexit.register(self.cleanup)] is [at_exit]
    below. *)
Definition __init__ (w : World) : t * World :=
  let self := {| good := false; clean := false; geometry := None |} in
  let w := call ([initscr] ++ _init_colors
                 ++ _set_color ColorIndex.normal (Some screen)
                 ++ [noecho; cbreak] ++ _hide_cursor
                 ++ [keypad screen true; clear screen; refresh screen]) w in
  if ((LINES w <? min_lines) || (COLS w <? min_cols))%Z then
    let '(self, w) := cleanup self w in
    let '(_, w) :=
      emit (error ("Min dim: " ++ str (VInt min_lines) ++ "x"
                       ++ str (VInt min_cols))) w in
    (self, w)
  else
    let lines :=
      if (max_border_lines * 2 + min_lines <? LINES w)%Z
      then (LINES w - max_border_lines * 2)%Z else min_lines in
    let cols :=
      if (max_border_cols * 2 + min_cols <? COLS w)%Z
      then (COLS w - max_border_cols * 2)%Z else min_cols in
    let line_origin := half (LINES w - lines) in
    let col_origin := half (COLS w - cols) in
    let w :=
      call [newwin border lines cols line_origin col_origin;
            newwin win (lines - 2) (cols - 4) (line_origin + 1)
                   (col_origin + 2);
            clear border; draw_border border; refresh border;
            clear win; refresh win] w in
    ({| good := true; clean := false;
        geometry := Some {| lines := lines; cols := cols;
                            line_origin := line_origin;
                            col_origin := col_origin |} |}, w).

(** *** Input, and what a call can come back with *)

(** What the terminal delivers while a drawing is pending.
    [Key k]: the drawing completes and [getkey] returns [k].
    [Fault n]: [n] curses calls of the drawing complete and the next one
    (the closing [getkey] when the drawing has no more) raises
    [curses.error]. *)
Inductive Event : Set :=
| Key (k : string)
| Fault (n : nat).

(** [Blocked]: the call waits in [getkey] and the input has run out. *)
Inductive Outcome (A : Type) : Type :=
| Returned (a : A)
| Raised (e : Exception)
| Blocked.
Arguments Returned {A} a.
Arguments Raised {A} e.
Arguments Blocked {A}.

(** One step of a drawing: a curses call, or taking the next message off
    the queue with [get_next_log]. *)
Inductive Step : Set :=
| Draw (c : Call)
| Pop.

(** Run a drawing; with [Some n], stop at the curses call that follows
    the [n]-th. *)
Fixpoint run (fault : option nat) (steps : list Step) (w : World) : World :=
  match steps with
  | [] => w
  | Pop :: rest => run fault rest (snd (get_next_log w))
  | Draw c :: rest =>
      match fault with
      | Some O => w
      | Some (S n) => run (Some n) rest (call [c] w)
      | None => run None rest (call [c] w)
      end
  end.

Definition nl : string := String "010" "".

Definition color_of (l : Message_Level.t) : ColorIndex.t :=
  match l with
  | Message_Level.success => ColorIndex.success
  | Message_Level.error => ColorIndex.error
  | Message_Level.warning => ColorIndex.warning
  | Message_Level.info => ColorIndex.info
  | Message_Level.verbose => ColorIndex.verbose
  end.

Definition show_help_steps : list Step :=
  [Draw (clear win);
   Draw (addstr win ("  down:  j / DOWN_ARROW" ++ nl
                     ++ "    up:  k / UP_ARROW" ++ nl
                     ++ "cancel:  q" ++ nl
                     ++ "select:  ; / ENTER"));
   Draw (refresh win)].

(** The rows of the list, [this_index] counting from [first]. *)
Fixpoint item_steps (cursor_index first : Z) (items : list string)
    : list Step :=
  match items with
  | [] => []
  | item :: rest =>
      Draw (addstr win (if (cursor_index =? first)%Z then "===> "
                        else "     "))
      :: Draw (addstr win (item ++ nl))
      :: item_steps cursor_index (first + 1) rest
  end.

Definition log_steps (queue : list Message) : list Step :=
  flat_map
    (fun msg =>
       Pop :: map Draw (_set_color (color_of (level msg)) None
                        ++ [addstr win (raw msg ++ nl)]
                        ++ _set_color ColorIndex.normal None)%list)
    queue.

(** The body of the [try] of [select] up to [getkey]. *)
Definition frame (prompt : string) (items : list string)
    (headings : option string) (cursor_index : Z) (w : World) : list Step :=
  ([Draw (clear win); Draw (addstr win (prompt ++ nl ++ nl))]
   ++ match headings with
      | Some h => if Str.truth h
                  then [Draw (addstr win ("     " ++ h ++ nl))] else []
      | None => []
      end
   ++ item_steps cursor_index 0 items
   ++ [Draw (addstr win nl)]
   ++ log_steps (log w)
   ++ [Draw (refresh win)])%list.

(** [items[i]], negative indices counting from the end. *)
Definition index {A : Type} (l : list A) (i : Z) : option A :=
  let n := Z.of_nat (length l) in
  if ((0 <=? i) && (i <? n))%Z then nth_error l (Z.to_nat i)
  else if ((- n <=? i) && (i <? 0))%Z then nth_error l (Z.to_nat (n + i))
  else None.

Definition is_key (key : string) (names : list string) : bool :=
  existsb (String.eqb key) names.

(** Lines 654-655. *)
Definition clamp (items : list string) (cursor_index : Z) : Z :=
  Z.min (Z.max cursor_index 0) (Z.of_nat (length items) - 1).

(** A validator handed to [select]: it may publish, draw and read keys. *)
Definition Validator : Type :=
  string -> list Event -> World -> Outcome bool * list Event * World.

Definition lift (validator : string -> Emit bool) : Validator :=
  fun item events w =>
    let '(ok, w') := emit (validator item) w in (Returned ok, events, w').

Section Select.

Variable validator : Validator.
Variable prompt : string.
Variable items : list string.
Variable headings : option string.

(** Where one pass through the body of the [while True] loop ends: at
    the top of the loop again, or outside [select]. *)
Inductive Next : Type :=
| Again (cursor_index : Z) (events : list Event) (w : World)
| Leave (result : Outcome (option Z) * list Event * World).

(** One pass through the body of the loop, lines 591-657. *)
Definition iteration (cursor_index : Z) (events : list Event) (w : World)
    : Next :=
  let steps := frame prompt items headings cursor_index w in
  match events with
  | [] => Leave (Blocked, [], run None steps w)
  | Fault n :: rest => Again cursor_index rest (run (Some n) steps w)
  | Key key :: rest =>
      let w := run None steps w in
      if is_key key ["j"; "KEY_DOWN"] then
        Again (clamp items (cursor_index + 1)) rest w
      else if is_key key ["k"; "KEY_UP"] then
        Again (clamp items (cursor_index - 1)) rest w
      else if is_key key ["q"] then Leave (Returned None, rest, w)
      else if is_key key [";"; nl] then
        match index items cursor_index with
        | None => Leave (Raised IndexError, rest, w)
        | Some item =>
            match validator item rest w with
            | (Returned true, rest', w') =>
                Leave (Returned (Some cursor_index), rest', w')
            | (Returned false, rest', w') => Leave (Returned None, rest', w')
            | (Raised e, rest', w') => Leave (Raised e, rest', w')
            | (Blocked, rest', w') => Leave (Blocked, rest', w')
            end
        end
      else
        match rest with
        | [] => Leave (Blocked, [], run None show_help_steps w)
        | Fault n :: rest' =>
            Again cursor_index rest' (run (Some n) show_help_steps w)
        | Key _ :: rest' =>
            Again cursor_index rest' (run None show_help_steps w)
        end
  end.

(** The loop. A pass that comes back to the top has read an event, so
    [fuel] above the number of events does not run out. *)
Fixpoint select_loop (fuel : nat) (cursor_index : Z) (events : list Event)
    (w : World) : Outcome (option Z) * list Event * World :=
  match fuel with
  | O => (Blocked, events, w)
  | S fuel' =>
      match iteration cursor_index events w with
      | Leave result => result
      | Again cursor_index' events' w' =>
          select_loop fuel' cursor_index' events' w'
      end
  end.

Definition select (cursor_index : Z) (events : list Event) (w : World)
    : Outcome (option Z) * list Event * World :=
  if (length items <=? 0)%nat then
    let '(_, w') := emit (error "Not enough items given to select from") w in
    (Returned None, events, w')
  else select_loop (S (length events)) cursor_index events w.

End Select.

(** [response[:-1]]. *)
Definition drop_last (s : string) : string :=
  string_of_list_ascii (removelast (list_ascii_of_string s)).

(** The [while True] loop of [input] on the [Field] object [field].
    [curs_set] answered in the constructor and answers again here. *)
Fixpoint input_loop (field : Profile.name) (prompt response : string)
    (events : list Event) (w : World) : Outcome unit * list Event * World :=
  let steps :=
    ([Draw (clear win);
      Draw (addstr win (prompt ++ nl ++ nl ++ ": " ++ response));
      Draw (refresh win)] ++ map Draw _show_cursor)%list in
  match events with
  | [] => (Blocked, [], run None steps w)
  | Fault n :: rest => input_loop field prompt response rest
                         (run (Some n) steps w)
  | Key key :: rest =>
      let w := call _hide_cursor (run None steps w) in
      if String.eqb key nl then
        let '(_, w') := Field_set field (VStr response) w in
        (Returned tt, rest, w')
      else
        let response :=
          if (Str.len key =? 1)%nat then response ++ key else response in
        let response :=
          if String.eqb key "KEY_BACKSPACE" then drop_last response
          else response in
        input_loop field prompt response rest w
  end.

Definition input (field : Profile.name) (prompt : string)
    (events : list Event) (w : World) : Outcome unit * list Event * World :=
  input_loop field prompt
    (Field.get_str (Profile.field (fields w) field)) events w.

Section Devices.

(** The closure [interactive_device_validator] of [get_device], for the
    minimum size it captures. It asks [lsblk] about the chosen device and
    may open a [select] of its own; [get_device] is modelled for every
    behaviour it can have. *)
Variable interactive_device_validator : Value -> Validator.

Definition get_device (min_bytes : Value) (events : list Event) (w : World)
    : Outcome (option string) * list Event * World :=
  let fail msg :=
    let '(_, w') := emit (error msg) w in (Returned None, events, w') in
  match commands w ["lsblk"; "--nodeps"; "--output";
                    "path,size,rm,ro,pttype,ptuuid"] with
  | None => fail "Failed to get device information from lsblk"
  | Some out =>
      if negb (Str.truth out)
      then fail "Failed to get device information from lsblk"
      else
        match Str.splitlines out with
        | device_headings :: (_ :: _) as devices =>
            match select (interactive_device_validator min_bytes)
                    "Select the device to format for installation:"
                    devices (Some device_headings) 0 events w with
            | (Returned None, rest, w') =>
                let '(_, w'') := emit (error "Failed to select a device") w'
                in (Returned None, rest, w'')
            | (Returned (Some selection_index), rest, w') =>
                match index devices selection_index with
                | None => (Raised IndexError, rest, w')
                | Some line =>
                    match Str.split line with
                    | [] =>
                        let '(_, w'') :=
                          emit (error ("Missing path for device: " ++ line))
                               w' in
                        (Returned None, rest, w'')
                    | path :: _ => (Returned (Some path), rest, w')
                    end
                end
            | (Raised e, rest, w') => (Raised e, rest, w')
            | (Blocked, rest, w') => (Blocked, rest, w')
            end
        | _ => fail "Not enough devices listed"
        end
  end.

End Devices.

Definition get_time_zone (events : list Event) (w : World)
    : Outcome (option string) * list Event * World :=
  let fail msg :=
    let '(_, w') := emit (error msg) w in (Returned None, events, w') in
  match commands w ["timedatectl"; "list-timezones"; "--no-pager"] with
  | None => fail "Failed to get the list of timezones from timedatectl"
  | Some timezones_str =>
      if negb (Str.truth timezones_str)
      then fail "Failed to get the list of timezones from timedatectl"
      else
        let timezones_list := Str.splitlines timezones_str in
        match select (lift Field.default_validator)
                "Select the new timezone:" timezones_list None 0 events w
        with
        | (Returned None, rest, w') =>
            let '(_, w'') := emit (error "Failed to select a timezone") w'
            in (Returned None, rest, w'')
        | (Returned (Some selection_index), rest, w') =>
            match index timezones_list selection_index with
            | None => (Raised IndexError, rest, w')
            | Some tz => (Returned (Some tz), rest, w')
            end
        | (Raised e, rest, w') => (Raised e, rest, w')
        | (Blocked, rest, w') => (Blocked, rest, w')
        end
  end.

End CursesApp.

(** ** interactive_conf *)

Section Controller.

Import CursesApp.

Variable interactive_device_validator : Value -> Validator.

(** A call that reads keys: the events it is given and the state, to its
    outcome, the events it leaves and the new state. *)
Definition UI (A : Type) : Type :=
  list Event -> World -> Outcome A * list Event * World.

Definition and_then {A B : Type} (m : UI A) (k : A -> UI B) : UI B :=
  fun events w =>
    match m events w with
    | (Returned a, rest, w') => k a rest w'
    | (Raised e, rest, w') => (Raised e, rest, w')
    | (Blocked, rest, w') => (Blocked, rest, w')
    end.

Definition done {A : Type} (a : A) : UI A :=
  fun events w => (Returned a, events, w).

Definition menu (profile : Profile.t) (w : World) : list string :=
  let shown n :=
    Field.get_str (Profile.field (fields w) (Profile.attr profile n)) in
  [" network install  ->  " ++ shown Profile.network_install;
   "min device bytes  ->  " ++ shown Profile.min_device_bytes;
   "          device  ->  " ++ shown Profile.device;
   "      boot label  ->  " ++ shown Profile.boot_label;
   "       time zone  ->  " ++ shown Profile.time_zone;
   "        hostname  ->  " ++ shown Profile.hostname;
   "   root password  ->  " ++ shown Profile.root_password;
   "        username  ->  " ++ shown Profile.username;
   "   user password  ->  " ++ shown Profile.user_password;
   "      sudo group  ->  " ++ shown Profile.sudo_group ++ nl;
   "Begin Installation"].

Definition of_option (r : option string) : Value :=
  match r with
  | Some s => VStr s
  | None => VNone
  end.

(** [profile.device.set(app.get_device(profile.min_device_bytes.get()))],
    lines 814 and 850. *)
Definition choose_device (profile : Profile.t) : UI unit :=
  fun events w =>
    let min_bytes :=
      Field.get (Profile.field (fields w)
                   (Profile.attr profile Profile.min_device_bytes)) in
    and_then (get_device interactive_device_validator min_bytes)
      (fun r events w =>
         (Returned tt, events,
          snd (Field_set (Profile.attr profile Profile.device)
                         (of_option r) w)))
      events w.

(** [profile.n = app.input(profile.n, prompt)]. *)
Definition edit (profile : Profile.t) (n : Profile.name) (prompt : string)
    : UI Profile.t :=
  and_then (input (Profile.attr profile n) prompt)
    (fun _ => done (Profile.setattr profile (Profile.key n)
                      (Profile.attr profile n))).

(** The branches of the loop body that come back to the menu: the row
    chosen, to the profile the next iteration sees. *)
Definition dispatch (profile : Profile.t) (cursor_index : Z)
    : UI Profile.t :=
  if (cursor_index =? 0)%Z then
    and_then
      (select (lift Field.default_validator)
         ("Enable network installation mode?" ++ nl ++ nl
          ++ "Note: Check the configuration at /etc/pacman.conf before changing this setting.")
         ["No. Install packages from an offline repository.";
          "Yes. Download and install packages from remote repositories."]
         None 0)
      (fun selection_index events w =>
         match selection_index with
         | Some i =>
             (Returned profile, events,
              snd (Field_set (Profile.attr profile Profile.network_install)
                             (VBool (negb (i =? 0)%Z)) w))
         | None => (Returned profile, events, w)
         end)
  else if (cursor_index =? 1)%Z then
    edit profile Profile.min_device_bytes
         "Enter the minimum number of bytes for a device:"
  else if (cursor_index =? 2)%Z then
    and_then (choose_device profile) (fun _ => done profile)
  else if (cursor_index =? 3)%Z then
    edit profile Profile.boot_label "Enter the new boot label:"
  else if (cursor_index =? 4)%Z then
    and_then get_time_zone
      (fun new_time_zone events w =>
         match new_time_zone with
         | Some tz =>
             if Str.truth tz then
               (Returned profile, events,
                snd (Field_set (Profile.attr profile Profile.time_zone)
                               (VStr tz) w))
             else (Returned profile, events, w)
         | None => (Returned profile, events, w)
         end)
  else if (cursor_index =? 5)%Z then
    edit profile Profile.hostname "Enter the new hostname:"
  else if (cursor_index =? 6)%Z then
    edit profile Profile.root_password "Enter the new password for root:"
  else if (cursor_index =? 7)%Z then
    edit profile Profile.username "Enter the new name for the user:"
  else if (cursor_index =? 8)%Z then
    edit profile Profile.user_password "Enter the new password for the user:"
  else if (cursor_index =? 9)%Z then
    edit profile Profile.sudo_group "Enter the new name for the sudo group:"
  else done profile.

Definition device_is_set (profile : Profile.t) (w : World) : bool :=
  match Field.get (Profile.field (fields w)
                     (Profile.attr profile Profile.device)) with
  | VNone => false
  | _ => true
  end.

(** The [while True] loop; [None] when the menu is cancelled, the profile
    when the loop is left by [break]. Every iteration reads a key, so
    [fuel] above the number of events never runs out. *)
Fixpoint menu_loop (fuel : nat) (profile : Profile.t) (cursor_index : Z)
    : UI (option Profile.t) :=
  match fuel with
  | O => fun events w => (Blocked, events, w)
  | S fuel' =>
      fun events w =>
        and_then
          (select (lift Field.default_validator)
             "Select a field to change before installation:"
             (menu profile w) None cursor_index)
          (fun chosen =>
             match chosen with
             | None => done None
             | Some cursor_index =>
                 if (cursor_index =? 10)%Z then
                   fun events w =>
                     if device_is_set profile w
                     then (Returned (Some profile), events, w)
                     else
                       and_then (choose_device profile)
                         (fun _ events w =>
                            if device_is_set profile w
                            then (Returned (Some profile), events, w)
                            else menu_loop fuel' profile cursor_index
                                   events w)
                         events w
                 else
                   and_then (dispatch profile cursor_index)
                     (fun profile' => menu_loop fuel' profile' cursor_index)
             end)
          events w
  end.

(** [interactive_conf(profile)], with the session object it leaves. The
    closing [run("clear")] changes nothing the model tracks. *)
Definition interactive_conf (profile : Profile.t) (events : list Event)
    (w : World) : Outcome (option Profile.t) * list Event * (t * World) :=
  let '(app, w) := __init__ w in
  if negb (good app) then (Returned None, events, (app, w))
  else
    match menu_loop (S (length events)) profile 0 events w with
    | (Returned (Some profile'), rest, w') =>
        (Returned (Some profile'), rest, cleanup app w')
    | (outcome, rest, w') => (outcome, rest, (app, w'))
    end.

End Controller.

(** ** Device selection without the interface *)

(** [s.lstrip()] and [s.strip()] for a given class of white space. *)
Fixpoint lstrip_by (white : ascii -> bool) (s : string) : string :=
  match s with
  | EmptyString => EmptyString
  | String c s' => if white c then lstrip_by white s' else s
  end.

Definition reverse (s : string) : string :=
  string_of_list_ascii (List.rev (list_ascii_of_string s)).

Definition strip_by (white : ascii -> bool) (s : string) : string :=
  reverse (lstrip_by white (reverse (lstrip_by white s))).

(** [int(s)] and [str(n)] as the interpreter gives them by default: a
    conversion between text and integer of more than 4300 digits raises
    [ValueError]. *)
Module Int.

Definition max_str_digits : nat := 4300.

(** The white space [int] skips at both ends of its argument. *)
Definition space (c : ascii) : bool :=
  Str.between 9 13 c || Str.at_code 32 c || Str.at_code 133 c
  || Str.at_code 160 c.

Definition digit (c : ascii) : bool := Str.between 48 57 c.

Definition value (c : ascii) : Z := Z.of_N (Str.code c) - 48.

(** The digits of a literal, single underscores allowed between them:
    the number read so far, the count of its digits, and whether the
    last character read was a digit. *)
Fixpoint literal (acc : Z) (count : nat) (after_digit : bool) (s : string)
    : option (Z * nat) :=
  match s with
  | EmptyString => if after_digit then Some (acc, count) else None
  | String c s' =>
      if digit c then literal (10 * acc + value c) (S count) true s'
      else if Str.at_code 95 c then
        if after_digit then literal acc count false s' else None
      else None
  end.

Definition unsigned (s : string) : option Z :=
  match literal 0 0 false s with
  | Some (n, count) =>
      if (max_str_digits <? count)%nat then None else Some n
  | None => None
  end.

(** [int(s)] in base ten; [None] is [ValueError]. *)
Definition of_str (s : string) : option Z :=
  match strip_by space s with
  | String "+" body => unsigned body
  | String "-" body => option_map Z.opp (unsigned body)
  | body => unsigned body
  end.

(** [str(n)]; [None] is [ValueError]. *)
Definition to_str (n : Z) : option string :=
  if (max_str_digits <? Str.len (Str.of_int (Z.abs n)))%nat then None
  else Some (Str.of_int n).

End Int.

(** What a function that converts integers comes back with. *)
Inductive Checked (A : Type) : Type :=
| Fine (a : A)
| ValueError.
Arguments Fine {A} a.
Arguments ValueError {A}.

Definition list_all_devices (w : World) : option (list string) * World :=
  match commands w ["lsblk"; "--noheadings"; "--nodeps"; "--output"; "path"]
  with
  | Some devices =>
      if Str.truth devices then (Some (Str.splitlines devices), w)
      else emit (error "Failed to get device information from lsblk" ;;
                 ret None) w
  | None => emit (error "Failed to get device information from lsblk" ;;
                  ret None) w
  end.

(** [min_dev_bytes] is an [int], as annotated. *)
Definition is_device_valid (dev_path : string) (min_dev_bytes : Z)
    (w : World) : Checked bool * World :=
  let fail msg := let '(_, w') := emit (error msg) w in (Fine false, w') in
  let no_info :=
    fail ("Failed to get device information from lsblk for device: "
          ++ dev_path) in
  match commands w ["lsblk"; "--noheadings"; "--nodeps"; "--bytes";
                    "--output"; "path,size"; dev_path] with
  | None => no_info
  | Some dev_info =>
      if negb (Str.truth dev_info) then no_info
      else
        match Str.split dev_info with
        | given :: dev_size :: _ =>
            if negb (String.eqb dev_path given) then
              fail ("Wrong device given by lsblk." ++ CursesApp.nl
                    ++ "Expected: " ++ dev_path ++ CursesApp.nl
                    ++ "   Given:" ++ given)
            else
              match Int.of_str dev_size with
              | None => (ValueError, w)
              | Some size =>
                  if (size <? min_dev_bytes)%Z then
                    match Int.to_str min_dev_bytes with
                    | None => (ValueError, w)
                    | Some shown =>
                        fail ("Not enough space on device: " ++ dev_path
                              ++ CursesApp.nl ++ "   Minimum required: "
                              ++ shown ++ " bytes" ++ CursesApp.nl
                              ++ "Available on device: " ++ dev_size
                              ++ " bytes")
                    end
                  else (Fine true, w)
              end
        | _ => fail ("Not enough fields given by lsblk for device: "
                     ++ dev_path)
        end
  end.

Definition device_lacks_partitions (dev_path : string) (w : World)
    : option bool * World :=
  let failed :=
    emit (error ("Failed to use lsblk to list partitions on device: "
                 ++ dev_path) ;; ret None) w in
  match commands w ["lsblk"; "--noheadings"; "--output"; "path"; dev_path]
  with
  | None => failed
  | Some parts =>
      if negb (Str.truth parts) then failed
      else
        match tl (Str.splitlines parts) with
        | _ :: _ =>
            emit (warning ("Partitions found on device: " ++ dev_path) ;;
                  ret (Some false)) w
        | [] => (Some true, w)
        end
  end.

(** The [for] loop of [get_device]. *)
Fixpoint get_device_loop (devices : list string) (min_size : Z) (w : World)
    : Checked (option string) * World :=
  match devices with
  | [] => (Fine None, w)
  | dev_path :: rest =>
      match is_device_valid dev_path min_size w with
      | (ValueError, w1) => (ValueError, w1)
      | (Fine false, w1) =>
          let '(_, w2) :=
            emit (info ("The minimum requirements for installation were not met by device: "
                        ++ dev_path)) w1 in
          get_device_loop rest min_size w2
      | (Fine true, w1) =>
          match device_lacks_partitions dev_path w1 with
          | (Some true, w2) => (Fine (Some dev_path), w2)
          | (_, w2) =>
              let '(_, w3) :=
                emit (info ("Formatting a device that already contains partitions will result in irreversible data loss!"
                            ++ CursesApp.nl ++ String "009" (String "009"
                            "Explicit permission (via interactive mode) is required to format a device with existing partitions")))
                     w2 in
              get_device_loop rest min_size w3
          end
      end
  end.

(** [get_device(min_size)], lines 228-253. *)
Definition get_device (min_size : Z) (w : World)
    : Checked (option string) * World :=
  match list_all_devices w with
  | (Some (dev_path :: rest), w1) =>
      get_device_loop (dev_path :: rest) min_size w1
  | (_, w1) =>
      let '(_, w2) := emit (error "Failed to list devices") w1 in
      (Fine None, w2)
  end.

(** ** The package list *)

(** What a path holds for [open] in text mode. [Locked]: [open] raises,
    for reading and for writing. The encoding is UTF-8 and the line
    separator of the platform is the line feed. *)
Inductive TextFile : Set :=
| Absent
| Locked
| Text (content : string).

Definition lf : ascii := "010"%char.
Definition cr : ascii := "013"%char.

(** [sep.join(parts)]. *)
Fixpoint join (sep : string) (parts : list string) : string :=
  match parts with
  | [] => ""
  | [part] => part
  | part :: rest => part ++ sep ++ join sep rest
  end.

(** The lines iterating over a file opened for reading gives: each ends
    at a line feed, a carriage return or the pair of them, read as one
    line feed; [cur] is the line being read. *)
Fixpoint lines_from (cur s : string) : list string :=
  match s with
  | EmptyString => if Str.truth cur then [cur] else []
  | String c s' =>
      if Ascii.eqb c lf then
        (cur ++ String lf "") :: lines_from "" s'
      else if Ascii.eqb c cr then
        match s' with
        | String c' s'' =>
            if Ascii.eqb c' lf
            then (cur ++ String lf "") :: lines_from "" s''
            else (cur ++ String lf "") :: lines_from "" s'
        | EmptyString => (cur ++ String lf "") :: lines_from "" s'
        end
      else lines_from (cur ++ String c "") s'
  end.

(** [s.strip()]. *)
Definition strip (s : string) : string := strip_by Str.space s.

Definition dump_packages (packages : list string) (path : string)
    (disk : string -> TextFile) (w : World)
    : bool * (string -> TextFile) * World :=
  match disk path with
  | Locked =>
      let '(_, w') :=
        emit (error ("Failed to write the package list to " ++ path)) w in
      (false, disk, w')
  | _ =>
      (true,
       fun p => if String.eqb p path
                then Text (join (String lf "") packages) else disk p,
       w)
  end.

Definition load_packages (path : string) (disk : string -> TextFile)
    (w : World) : option (list string) * World :=
  match disk path with
  | Text content => (Some (map strip (lines_from "" content)), w)
  | _ =>
      emit (error ("Failed to read the package list from " ++ path) ;;
            ret None) w
  end.

(** ** Vocabulary of the properties *)

(** A decimal digit, [0] to [9]. *)
Definition decimal_digit (c : ascii) : Prop := Str.between 48 57 c = true.

(** A constraint a validator checks: the test that finds a string in
    violation of it, and the text of the complaint. *)
Record Constraint : Type := {
  violated : string -> bool;
  complaint : string -> string
}.

Definition non_empty (what : string) : Constraint :=
  {| violated := fun s => negb (Str.truth s);
     complaint := fun _ => what ++ " must contain at least one character" |}.

Definition printable_ascii (what : string) : Constraint :=
  {| violated := fun s => negb (Str.isprintable s && Str.isascii s);
     complaint := fun _ =>
       what ++ " cannot contain non-printable or non-ascii characters" |}.

Definition at_most (what : string) (n : nat) (shown : string) : Constraint :=
  {| violated := fun s => (n <? Str.len s)%nat;
     complaint := fun _ =>
       what ++ " cannot be longer than " ++ shown ++ " characters" |}.

(** The validators of the program, each with the constraints it checks. *)
Definition rules : list ((string -> Emit bool) * list Constraint) :=
  [(Field.default_validator, []);
   (Field.numeric_validator,
    [{| violated := fun s => negb (Str.isnumeric s);
        complaint := fun s => "The given value is not numeric: " ++ s |}]);
   (Field.boot_label_validator,
    [non_empty "Boot labels"; printable_ascii "Boot labels"]);
   (Field.hostname_validator,
    [non_empty "Hostnames"; at_most "Hostnames" 64 "64";
     {| violated := fun s =>
          negb (Str.islower (Str.replace "-" s)
                && Str.isalnum (Str.replace "-" s));
        complaint := fun _ =>
          "Hostnames may only contain lowercase letters, numbers, and hyphens"
     |}]);
   (Field.name_validator,
    [non_empty "Names";
     {| violated := Str.isnumeric;
        complaint := fun _ => "Names cannot be entirely numeric" |};
     {| violated := Str.startswith "-";
        complaint := fun _ => "Names cannot start with a hyphen" |};
     at_most "Names" 32 "32";
     {| violated := fun s =>
          negb (Str.isalnum (Str.replace "_" (Str.replace "-" s)));
        complaint := fun _ =>
          "Names may only contain letters, numbers, underscores, and hyphens"
     |}]);
   (Field.password_validator,
    [non_empty "Passwords"; printable_ascii "Passwords"])].

(** The value a [Field] holds is one its validator accepts. *)
Definition holds_valid (self : Field.t) : Prop :=
  fst (Field._validator self (str (Field._value self))) = true.

(** An instance whose attributes refer to the objects of the class body:
    what [Profile()] gives and every assignment of the program keeps. *)
Definition aliases (profile : Profile.t) : Prop :=
  forall n, Profile.attr profile n = n.

(** The calls by which [cleanup] gives the terminal back. *)
Definition restores : list curses.Call :=
  [curses.keypad curses.screen false; curses.curs_set 1; curses.echo;
   curses.nocbreak; curses.endwin].

Definition is_restore (c : curses.Call) : bool :=
  match c with
  | curses.keypad curses.screen false => true
  | curses.curs_set 1 => true
  | curses.echo | curses.nocbreak | curses.endwin => true
  | _ => false
  end.

(** [n] calls of [cleanup] in a row. *)
Fixpoint cleanups (n : nat) (s : CursesApp.t * World)
    : CursesApp.t * World :=
  match n with
  | O => s
  | S n' => cleanups n' (CursesApp.cleanup (fst s) (snd s))
  end.

(** The exit handler: [atexit.register(self.cleanup)], line 490. *)
Definition at_exit (s : CursesApp.t * World) : CursesApp.t * World :=
  CursesApp.cleanup (fst s) (snd s).

(** The cursor positions the loop of [select] passes through at its top,
    from a given start. *)
Inductive visits (validator : CursesApp.Validator) (prompt : string)
    (items : list string) (headings : option string)
    : Z -> list CursesApp.Event -> World -> Z -> Prop :=
| visits_start : forall c events w,
    visits validator prompt items headings c events w c
| visits_step : forall c events w c1 events1 w1 c2,
    CursesApp.iteration validator prompt items headings c events w
      = CursesApp.Again c1 events1 w1 ->
    visits validator prompt items headings c1 events1 w1 c2 ->
    visits validator prompt items headings c events w c2.

(** A call that creates or draws on the bordered viewport: the windows
    [border] and [win]. *)
Definition viewport_call (c : curses.Call) : bool :=
  match c with
  | curses.newwin _ _ _ _ _ => true
  | curses.keypad curses.screen _ | curses.clear curses.screen
  | curses.refresh curses.screen | curses.draw_border curses.screen
  | curses.bkgdset curses.screen _ | curses.addstr curses.screen _ => false
  | curses.keypad _ _ | curses.clear _ | curses.refresh _
  | curses.draw_border _ | curses.bkgdset _ _ | curses.addstr _ _ => true
  | _ => false
  end.

(** The characters U+0020..U+007E. *)
Definition plain (c : ascii) : bool := Str.between 32 126 c.

Definition alnum (c : ascii) : bool := Str.alpha c || Str.numeric c.


(** What [name_validator] lets through, character by character. *)
Definition name_char (c : ascii) : bool :=
  Ascii.eqb c "-" || Ascii.eqb c "_" || alnum c.

(** [bool(l)] for a list. *)
Definition nonempty {A : Type} (l : list A) : bool :=
  match l with [] => false | _ :: _ => true end.

Definition is_draw (s : CursesApp.Step) : bool :=
  match s with CursesApp.Draw _ => true | CursesApp.Pop => false end.

(** The line [get_next_log] writes to the log file for a message. *)
Definition log_line (m : Message) : string :=
  String.append (raw m) (String "010" "").

(** What neither drawing nor publishing touches. *)
Definition same_machine (w w' : World) : Prop :=
  fields w' = fields w /\ fs w' = fs w /\ commands w' = commands w
  /\ LINES w' = LINES w /\ COLS w' = COLS w.

(** An instance whose [__dict__] binds a key only to the object the
    class binds it to. *)
Definition bound (profile : Profile.t) : Prop :=
  forall k n, Profile.lookup k profile = Some n -> Profile.of_key k = Some n.

(** Every [Field] object of the class holds a value its validator
    accepts. *)
Definition all_valid (ns : Profile.namespace) : Prop :=
  forall n, holds_valid (Profile.field ns n).

(** What [load_profile] and [dump_profile] report when they fail. *)
Definition read_failure (path : string) : Message :=
  {| raw := "  [Error] Failed to read the profile from " ++ path ++ ".";
     level := Message_Level.error |}.

(** [w'] is [w] with messages added to the queue and fields assigned:
    no file written, no curses call made, nothing taken off the queue. *)
Definition publishes (w w' : World) : Prop :=
  fs w' = fs w /\ commands w' = commands w /\ LINES w' = LINES w
  /\ COLS w' = COLS w /\ calls w' = calls w /\ log_file w' = log_file w
  /\ exists more, log w' = (log w ++ more)%list.

(** What [lsblk] reports of a device: its own line gives the path and a
    size, an integer of at least [min_size]. *)
Definition large_enough (cmds : list string -> option string)
    (dev_path : string) (min_size : Z) : Prop :=
  exists dev_info dev_size more size,
    cmds ["lsblk"; "--noheadings"; "--nodeps"; "--bytes"; "--output";
          "path,size"; dev_path] = Some dev_info
    /\ Str.split dev_info = dev_path :: dev_size :: more
    /\ Int.of_str dev_size = Some size
    /\ (min_size <= size)%Z.

(** [lsblk] lists the device and nothing below it. *)
Definition unpartitioned (cmds : list string -> option string)
    (dev_path : string) : Prop :=
  exists parts,
    cmds ["lsblk"; "--noheadings"; "--output"; "path"; dev_path]
    = Some parts
    /\ parts <> "" /\ tl (Str.splitlines parts) = [].

Definition suitable (cmds : list string -> option string) (min_size : Z)
    (dev_path : string) : Prop :=
  large_enough cmds dev_path min_size /\ unpartitioned cmds dev_path.

(** [w'] is [w] with messages added to the queue, and nothing else. *)
Definition only_publishes (w w' : World) : Prop :=
  publishes w w' /\ fields w' = fields w.

(** A machine with two disks for the examples: [/dev/sda], of 500 GB
    and partitioned, and [/dev/sdb], of 32 GB and empty. *)
Definition two_disks (argv : list string) : option string :=
  match argv with
  | [_; _; _; _; last] =>
      if String.eqb last "path"
      then Some ("/dev/sda" ++ CursesApp.nl ++ "/dev/sdb")
      else if String.eqb last "/dev/sda"
      then Some ("/dev/sda" ++ CursesApp.nl ++ "/dev/sda1")
      else Some last
  | [_; _; _; _; _; _; dev_path] =>
      if String.eqb dev_path "/dev/sda"
      then Some "/dev/sda 500000000000"
      else Some (dev_path ++ " 32000000000")
  | _ => None
  end.

(** A package name as [pacman] has them: not empty, and without white
    space. *)
Definition package_name (p : string) : Prop :=
  p <> "" /\ Forall (fun c => Str.space c = false) (Str.chars p).


(** What a frame of [select] draws before it turns to the queue. *)
Definition frame_head (prompt : string) (items : list string)
    (headings : option string) (cursor_index : Z)
    : list CursesApp.Step :=
  ([CursesApp.Draw (curses.clear curses.win);
    CursesApp.Draw
      (curses.addstr curses.win (prompt ++ CursesApp.nl ++ CursesApp.nl))]
   ++ match headings with
      | Some h =>
          if Str.truth h
          then [CursesApp.Draw
                  (curses.addstr curses.win
                     ("     " ++ h ++ CursesApp.nl))]
          else []
      | None => []
      end
   ++ CursesApp.item_steps cursor_index 0 items
   ++ [CursesApp.Draw (curses.addstr curses.win CursesApp.nl)])%list.

(** * Properties *)

(** ** Validators and [Field.set] *)

Lemma forallb_Forall_true {A : Type} (f : A -> bool) (l : list A) :
  forallb f l = true <-> Forall (fun x => f x = true) l.
Proof.
  induction l as [|x l IH]; simpl.
  - split; [constructor | reflexivity].
  - rewrite andb_true_iff, IH. split.
    + intros [Hx Hl]. constructor; assumption.
    + intros H. inversion H; subst. split; assumption.
Qed.

Lemma truth_true_iff (s : string) : Str.truth s = true <-> s <> "".
Proof.
  destruct s; simpl; split; intros H; try reflexivity; try discriminate.
  exfalso. apply H. reflexivity.
Qed.

(** What [set] does, in terms of what the validator answers. *)
Lemma set_unfold (self : Field.t) (value : Value) :
  Field.set self value =
    ((fst (Field._validator self (str value)),
      if fst (Field._validator self (str value))
      then {| Field._value := value;
              Field._validator := Field._validator self |}
      else self),
     snd (Field._validator self (str value))).
Proof.
  unfold Field.set, bind, ret.
  destruct (Field._validator self (str value)) as [[|] out]; simpl;
    rewrite app_nil_r; reflexivity.
Qed.

(** C5, as amended. The numeric validator returns true exactly when the
    string is not empty and every character of it is numeric in the sense
    of [str.isnumeric]; when it returns false it has published the error
    message that names the rejected value, and nothing else. *)
Theorem numeric_validator_spec (value : string) :
  (fst (Field.numeric_validator value) = true <->
     value <> "" /\ Forall (fun c => Str.numeric c = true) (Str.chars value))
  /\ (fst (Field.numeric_validator value) = false ->
      snd (Field.numeric_validator value) =
        [{| raw := "  [Error] The given value is not numeric: " ++ value
                   ++ ".";
            level := Message_Level.error |}]).
Proof.
  unfold Field.numeric_validator, Str.isnumeric.
  rewrite <- truth_true_iff, <- forallb_Forall_true, <- andb_true_iff.
  destruct (Str.truth value && forallb Str.numeric (Str.chars value));
    simpl; split; try tauto; discriminate.
Qed.

(** C5, as stated, fails on the empty string: every character of it is a
    decimal digit, and the validator rejects it. *)
Lemma numeric_validator_rejects_empty :
  fst (Field.numeric_validator "") = false
  /\ Forall decimal_digit (Str.chars "").
Proof. split; [reflexivity | constructor]. Qed.

(** A character that is numeric and no decimal digit: superscript two is
    accepted. *)
Example numeric_validator_accepts_superscript :
  fst (Field.numeric_validator (String "178" "")) = true
  /\ Str.between 48 57 "178"%char = false.
Proof. split; reflexivity. Qed.

(** A validator of the program either accepts, or rejects with exactly
    the complaint of a constraint the string violates. *)
Lemma validator_complains (validator : string -> Emit bool)
    (cs : list Constraint) (s : string) :
  In (validator, cs) rules ->
  fst (validator s) = false ->
  exists c, In c cs /\ violated c s = true
            /\ snd (validator s) = snd (error (complaint c s)).
Proof.
  unfold rules. simpl.
  intros [H|[H|[H|[H|[H|[H|[]]]]]]]; inversion H; subst; clear H.
  - discriminate.
  - unfold Field.numeric_validator.
    destruct (negb (Str.isnumeric s)) eqn:E1; [|discriminate].
    intros _. eexists. split; [left; reflexivity|]. split; [exact E1|].
    reflexivity.
  - unfold Field.boot_label_validator.
    destruct (negb (Str.truth s)) eqn:E1.
    { intros _. exists (non_empty "Boot labels").
      split; [simpl; tauto|]. split; [exact E1 | reflexivity]. }
    destruct (negb (Str.isprintable s && Str.isascii s)) eqn:E2;
      [|discriminate].
    intros _. exists (printable_ascii "Boot labels").
    split; [simpl; tauto|]. split; [exact E2 | reflexivity].
  - unfold Field.hostname_validator.
    destruct (negb (Str.truth s)) eqn:E1.
    { intros _. exists (non_empty "Hostnames").
      split; [simpl; tauto|]. split; [exact E1 | reflexivity]. }
    destruct (64 <? Str.len s)%nat eqn:E2.
    { intros _. exists (at_most "Hostnames" 64 "64").
      split; [simpl; tauto|]. split; [exact E2 | reflexivity]. }
    destruct (negb (Str.islower (Str.replace "-" s)
                    && Str.isalnum (Str.replace "-" s))) eqn:E3;
      [|discriminate].
    intros _. eexists. split; [right; right; left; reflexivity|].
    split; [exact E3 | reflexivity].
  - unfold Field.name_validator.
    destruct (negb (Str.truth s)) eqn:E1.
    { intros _. exists (non_empty "Names").
      split; [simpl; tauto|]. split; [exact E1 | reflexivity]. }
    destruct (Str.isnumeric s) eqn:E2.
    { intros _. eexists. split; [right; left; reflexivity|].
      split; [exact E2 | reflexivity]. }
    destruct (Str.startswith "-" s) eqn:E3.
    { intros _. eexists. split; [right; right; left; reflexivity|].
      split; [exact E3 | reflexivity]. }
    destruct (32 <? Str.len s)%nat eqn:E4.
    { intros _. exists (at_most "Names" 32 "32").
      split; [simpl; tauto|]. split; [exact E4 | reflexivity]. }
    destruct (negb (Str.isalnum (Str.replace "_" (Str.replace "-" s))))
      eqn:E5; [|discriminate].
    intros _. eexists.
    split; [right; right; right; right; left; reflexivity|].
    split; [exact E5 | reflexivity].
  - unfold Field.password_validator.
    destruct (negb (Str.truth s)) eqn:E1.
    { intros _. exists (non_empty "Passwords").
      split; [simpl; tauto|]. split; [exact E1 | reflexivity]. }
    destruct (negb (Str.isprintable s && Str.isascii s)) eqn:E2;
      [|discriminate].
    intros _. exists (printable_ascii "Passwords").
    split; [simpl; tauto|]. split; [exact E2 | reflexivity].
Qed.

(** C3. For a [Field] with one of the program's validators and every
    candidate value: [set] returns what the validator answers on the
    string form of the candidate; on true the candidate is stored; on
    false the [Field] is unchanged and exactly one error message, the
    complaint of a constraint the candidate violates, has been published;
    and a [Field] that held a valid value still holds one. *)
Theorem Field_set_validates (validator : string -> Emit bool)
    (cs : list Constraint) (held value : Value) :
  In (validator, cs) rules ->
  let self := Field.__init__ held validator in
  let result := Field.set self value in
  fst (fst result) = fst (validator (str value))
  /\ (fst (fst result) = true -> Field.get (snd (fst result)) = value)
  /\ (fst (fst result) = false ->
      snd (fst result) = self
      /\ exists c, In c cs /\ violated c (str value) = true
                   /\ snd result = snd (error (complaint c (str value))))
  /\ (holds_valid self -> holds_valid (snd (fst result))).
Proof.
  intros Hrule self result. subst result. rewrite set_unfold.
  subst self. unfold Field.__init__. simpl.
  destruct (fst (validator (str value))) eqn:E.
  - split; [reflexivity|]. split; [reflexivity|].
    split; [discriminate|]. intros _. exact E.
  - split; [reflexivity|]. split; [discriminate|].
    split; [|tauto]. intros _. split; [reflexivity|].
    apply validator_complains; assumption.
Qed.

(** C3 at hostname ["My-Host"]: rejected, the value ["arch"] kept. *)
Lemma Field_set_validates_witness :
  In (Field.hostname_validator,
      [non_empty "Hostnames"; at_most "Hostnames" 64 "64";
       {| violated := fun s =>
            negb (Str.islower (Str.replace "-" s)
                  && Str.isalnum (Str.replace "-" s));
          complaint := fun _ =>
            "Hostnames may only contain lowercase letters, numbers, and hyphens"
       |}]) rules
  /\ fst (fst (Field.set (Field.__init__ (VStr "arch")
                            Field.hostname_validator) (VStr "My-Host")))
     = false.
Proof.
  assert (H : In (Field.hostname_validator,
      [non_empty "Hostnames"; at_most "Hostnames" 64 "64";
       {| violated := fun s =>
            negb (Str.islower (Str.replace "-" s)
                  && Str.isalnum (Str.replace "-" s));
          complaint := fun _ =>
            "Hostnames may only contain lowercase letters, numbers, and hyphens"
       |}]) rules).
  { unfold rules. right. right. right. left. reflexivity. }
  split; [exact H|].
  rewrite (proj1 (Field_set_validates _ _ (VStr "arch") (VStr "My-Host") H)).
  reflexivity.
Defined.

(** ** The profile *)

Lemma name_eqb_eq (a b : Profile.name) :
  Profile.name_eqb a b = true <-> a = b.
Proof.
  split.
  - destruct a, b; intros H; try reflexivity; vm_compute in H; discriminate.
  - intros ->. destruct b; reflexivity.
Qed.

Lemma update_same (ns : Profile.namespace) (n : Profile.name) (v : Value) :
  Profile.update ns n v n = v.
Proof.
  unfold Profile.update.
  rewrite (proj2 (name_eqb_eq n n) eq_refl). reflexivity.
Qed.

Lemma update_other (ns : Profile.namespace) (n m : Profile.name)
    (v : Value) :
  m <> n -> Profile.update ns n v m = ns m.
Proof.
  intros Hne. unfold Profile.update.
  destruct (Profile.name_eqb m n) eqn:E; [|reflexivity].
  apply name_eqb_eq in E. contradiction.
Qed.

Lemma of_key_key (n : Profile.name) : Profile.of_key (Profile.key n) = Some n.
Proof. destruct n; reflexivity. Qed.

(** [set] on an object of the class, in terms of its validator. *)
Lemma Field_set_unfold (n : Profile.name) (value : Value) (w : World) :
  Field_set n value w =
    (fst (Profile.validator n (str value)),
     set_fields
       (Profile.update (fields w) n
          (if fst (Profile.validator n (str value)) then value
           else fields w n))
       (set_log (log w ++ snd (Profile.validator n (str value)))%list w)).
Proof.
  unfold Field_set. rewrite set_unfold. simpl.
  destruct (fst (Profile.validator n (str value))); reflexivity.
Qed.

Lemma aliases_init : aliases Profile.__init__.
Proof. intros n. reflexivity. Qed.


Section Loading.

Variable other_attr : string -> bool.

(** [setattr(profile, key, getattr(profile, key))] keeps an alias. *)
Lemma aliases_rebind (profile : Profile.t) (k : string) (n : Profile.name) :
  aliases profile ->
  Profile.getattr other_attr profile k = Some (Profile.AField n) ->
  aliases (Profile.setattr profile k n).
Proof.
  intros Hp Hget m. unfold Profile.attr, Profile.setattr. simpl.
  destruct (String.eqb k (Profile.key m)) eqn:E; [|apply Hp].
  apply String.eqb_eq in E. subst k.
  unfold Profile.getattr in Hget. specialize (Hp m).
  unfold Profile.attr in Hp.
  destruct (Profile.lookup (Profile.key m) profile).
  - congruence.
  - rewrite of_key_key in Hget. congruence.
Qed.

(** The loop of [load_profile] hands back an alias of the class. *)
Lemma load_items_aliases (items : list (string * Value)) :
  forall profile w profile',
    aliases profile ->
    fst (load_items other_attr items profile w) = inl profile' ->
    aliases profile'.
Proof.
  induction items as [|[k value] rest IH]; intros profile w profile' Hp.
  - simpl. intros H. inversion H. subst. exact Hp.
  - simpl. unfold Profile.hasattr.
    destruct (Profile.getattr other_attr profile k) as [[n|]|] eqn:Hget.
    + rewrite Field_set_unfold.
      destruct (fst (Profile.validator n (str value))).
      * apply IH. eapply aliases_rebind; eassumption.
      * destruct value; simpl; try discriminate.
        apply IH. eapply aliases_rebind; eassumption.
    + simpl. discriminate.
    + apply IH. exact Hp.
Qed.

Lemma load_profile_aliases (path : string) (w : World)
    (profile : Profile.t) :
  fst (load_profile other_attr path w) = Some profile -> aliases profile.
Proof.
  unfold load_profile.
  destruct (fs w path) as [| | |[items|]]; simpl; try discriminate.
  destruct (load_items other_attr items Profile.__init__ w)
    as [[p|e] w'] eqn:E; simpl; [|discriminate].
  intros H. inversion H. subst.
  eapply load_items_aliases with (w := w); [apply aliases_init|].
  rewrite E. reflexivity.
Qed.

(** C4. The [Field] objects belong to the class: when a document sets
    the field [n] to a value its validator accepts, [load_profile]
    returns a profile, and the value is then read through that profile,
    through any other instance [q], and through a [Profile()] made
    afterwards, whatever the field held before. *)
Theorem load_profile_shared_fields (path : string) (w : World)
    (q : Profile.t) (n : Profile.name) (value : Value) :
  aliases q ->
  fs w path = Document (JObject [(Profile.key n, value)]) ->
  fst (Profile.validator n (str value)) = true ->
  let w' := snd (load_profile other_attr path w) in
  let read profile :=
    Field.get (Profile.field (fields w') (Profile.attr profile n)) in
  exists profile,
    fst (load_profile other_attr path w) = Some profile
    /\ read profile = value
    /\ read q = value
    /\ read Profile.__init__ = value.
Proof.
  intros Hq Hfs Hok w' read. subst read w'.
  unfold load_profile. rewrite Hfs. simpl.
  unfold Profile.hasattr, Profile.getattr. simpl. rewrite of_key_key.
  rewrite Field_set_unfold, Hok. simpl.
  eexists. split; [reflexivity|].
  rewrite Hq. unfold Profile.attr. simpl.
  rewrite String.eqb_refl, update_same. auto.
Qed.

(** Where C2 holds: on a document whose values are strings and whose
    keys name no attribute other than the ten fields, the loop ends
    without an exception and [load_profile] returns a profile. *)
Lemma load_items_strings (items : list (string * Value)) :
  forall profile w,
    Forall (fun kv => (exists s, snd kv = VStr s)
                      /\ (Profile.of_key (fst kv) = None ->
                          other_attr (fst kv) = false)) items ->
    exists profile', fst (load_items other_attr items profile w)
                     = inl profile'.
Proof.
  induction items as [|[k value] rest IH]; intros profile w Hall.
  - exists profile. reflexivity.
  - inversion Hall as [|kv l [[s Hs] Hk] Hrest]; subst. simpl in Hs, Hk.
    subst value. simpl. unfold Profile.hasattr.
    destruct (Profile.getattr other_attr profile k) as [[n|]|] eqn:Hget.
    + rewrite Field_set_unfold. simpl.
      destruct (fst (Profile.validator n s)); simpl; apply IH; assumption.
    + exfalso. unfold Profile.getattr in Hget.
      destruct (Profile.lookup k profile); [discriminate|].
      destruct (Profile.of_key k); [discriminate|].
      rewrite Hk in Hget by reflexivity. discriminate.
    + apply IH. assumption.
Qed.

Lemma load_profile_strings (path : string) (w : World)
    (items : list (string * Value)) :
  fs w path = Document (JObject items) ->
  Forall (fun kv => (exists s, snd kv = VStr s)
                    /\ (Profile.of_key (fst kv) = None ->
                        other_attr (fst kv) = false)) items ->
  exists profile, fst (load_profile other_attr path w) = Some profile.
Proof.
  intros Hfs Hall. unfold load_profile. rewrite Hfs.
  destruct (load_items_strings items Profile.__init__ w Hall) as [p Hp].
  destruct (load_items other_attr items Profile.__init__ w) as [[q|e] w'];
    simpl in *; [|discriminate].
  exists q. reflexivity.
Qed.

End Loading.

(** A value stored through one instance is the value read through any
    other, and through a [Profile()] made afterwards. *)
Lemma Field_set_seen_by_all (p q : Profile.t) (n : Profile.name)
    (value : Value) (w : World) :
  aliases p -> aliases q ->
  fst (Field_set (Profile.attr p n) value w) = true ->
  let w' := snd (Field_set (Profile.attr p n) value w) in
  Field.get (Profile.field (fields w') (Profile.attr q n)) = value
  /\ Field.get (Profile.field (fields w') (Profile.attr Profile.__init__ n))
     = value.
Proof.
  intros Hp Hq. rewrite (Hp n), (Hq n), Field_set_unfold. simpl.
  intros ->. simpl. rewrite (aliases_init n), update_same.
  split; reflexivity.
Qed.

(** Storing into one field leaves the other nine as they were. *)
Lemma Field_set_frame (n m : Profile.name) (value : Value) (w : World) :
  m <> n -> fields (snd (Field_set n value w)) m = fields w m.
Proof.
  intros Hne. rewrite Field_set_unfold. simpl.
  apply update_other. exact Hne.
Qed.

(** The default values of the class body pass their validators. *)
Lemma defaults_valid (n : Profile.name) :
  holds_valid (Profile.field Profile.body n).
Proof. destruct n; reflexivity. Qed.

(** C4 at the document [{"hostname": "node1"}]: a [Profile()] made after
    the load reports the loaded name, not the default of the class body. *)
Lemma load_profile_shared_fields_witness :
  let w := boot (fun _ => Document (JObject [("hostname", VStr "node1")]))
                (fun _ => None) 24 80 in
  let w' := snd (load_profile (fun _ => false) "profile.json" w) in
  (exists profile,
     fst (load_profile (fun _ => false) "profile.json" w) = Some profile
     /\ Field.get (Profile.field (fields w')
                     (Profile.attr profile Profile.hostname)) = VStr "node1"
     /\ Field.get (Profile.field (fields w')
                     (Profile.attr Profile.__init__ Profile.hostname))
        = VStr "node1"
     /\ Field.get (Profile.field (fields w')
                     (Profile.attr Profile.__init__ Profile.hostname))
        = VStr "node1")
  /\ Profile.default Profile.hostname = VStr "arch".
Proof.
  split; [|reflexivity].
  exact (load_profile_shared_fields (fun _ => false) "profile.json"
           (boot (fun _ => Document (JObject [("hostname", VStr "node1")]))
                 (fun _ => None) 24 80)
           Profile.__init__ Profile.hostname (VStr "node1")
           aliases_init eq_refl eq_refl).
Defined.

(** Loading the empty object changes nothing. *)
Lemma load_profile_empty (other_attr : string -> bool) (path : string)
    (w : World) :
  fs w path = Document (JObject []) ->
  load_profile other_attr path w = (Some Profile.__init__, w).
Proof. intros H. unfold load_profile. rewrite H. reflexivity. Qed.

(** C1, where the code departs from it. [dump_profile] writes the empty
    object whatever the fields hold, unless the file cannot be opened. So
    a hostname set to ["node1"] is not in the document, and the process
    that loads the document reads the default ["arch"]. *)
Theorem dump_profile_writes_no_field (other_attr : string -> bool)
    (profile : Profile.t) (path : string) (w : World) :
  (fs w path = Denied
   \/ fst (dump_profile profile path w) = true
      /\ fs (snd (dump_profile profile path w)) path = Document (JObject []))
  /\ let w1 := snd (Field_set Profile.hostname (VStr "node1")
                      (boot (fun _ => Missing) (commands w) 24 80)) in
     let w2 := snd (dump_profile Profile.__init__ path w1) in
     let w3 := boot (fs w2) (commands w) 24 80 in
     Field.get (Profile.field (fields w1) Profile.hostname) = VStr "node1"
     /\ fs w2 path = Document (JObject [])
     /\ exists loaded,
          fst (load_profile other_attr path w3) = Some loaded
          /\ Field.get (Profile.field
                          (fields (snd (load_profile other_attr path w3)))
                          (Profile.attr loaded Profile.hostname))
             = VStr "arch".
Proof.
  split.
  - unfold dump_profile. simpl.
    destruct (fs w path) eqn:E; [right|left; reflexivity|right|right];
      (split; [reflexivity|]); unfold write_file; simpl;
      rewrite String.eqb_refl; reflexivity.
  - cbv zeta. split; [reflexivity|].
    assert (Hdoc :
      fs (snd (dump_profile Profile.__init__ path
                 (snd (Field_set Profile.hostname (VStr "node1")
                         (boot (fun _ => Missing) (commands w) 24 80)))))
         path = Document (JObject [])).
    { unfold dump_profile, write_file. simpl.
      rewrite String.eqb_refl. reflexivity. }
    split; [exact Hdoc|].
    exists Profile.__init__.
    rewrite load_profile_empty by exact Hdoc.
    split; reflexivity.
Qed.

(** C2, where the code departs from it. A document that parses, with the
    one known key [min_device_bytes] and the integer [-5], which the
    validator rejects: building the warning adds an integer to a string,
    the exception leaves the loop, and [load_profile] returns no profile. *)
Theorem load_profile_rejected_number_fails (other_attr : string -> bool)
    (path : string) (cmds : list string -> option string) (nlines ncols : Z) :
  let w := boot (fun _ => Document
                   (JObject [("min_device_bytes", VInt (-5))]))
                cmds nlines ncols in
  fst (load_profile other_attr path w) = None
  /\ log (snd (load_profile other_attr path w)) =
       [{| raw := "  [Error] The given value is not numeric: -5.";
           level := Message_Level.error |};
        {| raw := "  [Error] Failed to read the profile from " ++ path
                  ++ ".";
           level := Message_Level.error |}].
Proof. split; reflexivity. Qed.

(** The example of the specification: an unknown key is skipped with a
    warning that names it, and the known key is applied. *)
Lemma load_profile_skips_unknown_key (other_attr : string -> bool)
    (path : string) (cmds : list string -> option string) (nlines ncols : Z) :
  other_attr "bogus" = false ->
  let w := boot (fun _ => Document
                   (JObject [("bogus", VInt 1); ("hostname", VStr "node1")]))
                cmds nlines ncols in
  fst (load_profile other_attr path w) = Some [("hostname", Profile.hostname)]
  /\ fields (snd (load_profile other_attr path w)) Profile.hostname
     = VStr "node1"
  /\ log (snd (load_profile other_attr path w)) =
       [{| raw := "[Warning] Unrecognized field in profile: bogus.";
           level := Message_Level.warning |}].
Proof.
  intros Hbogus. unfold load_profile. simpl.
  unfold Profile.hasattr, Profile.getattr. simpl. rewrite Hbogus. simpl.
  repeat split; reflexivity.
Qed.

(** A rejected string is reported by a warning and the load goes on; the
    field keeps what it held. *)
Lemma load_profile_rejected_string_warns (other_attr : string -> bool)
    (path : string) (cmds : list string -> option string) (nlines ncols : Z) :
  let w := boot (fun _ => Document (JObject [("hostname", VStr "My-Host")]))
                cmds nlines ncols in
  fst (load_profile other_attr path w) = Some [("hostname", Profile.hostname)]
  /\ fields (snd (load_profile other_attr path w)) Profile.hostname
     = VStr "arch".
Proof. split; reflexivity. Qed.

(** ** The terminal session *)

(** C6. At a terminal of 12 lines by 44 columns the constructor succeeds
    with a viewport of 12 by 44 at the origin. Whenever it succeeds the
    viewport has at least 12 lines (so at least 10) and 44 columns and
    lies within the terminal. At a terminal below 12 lines or below 44
    columns [good] is false, no geometry is set, and none of the calls
    made creates or draws on the viewport. *)
Theorem init_geometry (w : World) :
  let app := fst (CursesApp.__init__ w) in
  let w' := snd (CursesApp.__init__ w) in
  (LINES w = 12%Z -> COLS w = 44%Z ->
   CursesApp.good app = true
   /\ CursesApp.geometry app =
        Some {| CursesApp.lines := 12; CursesApp.cols := 44;
                CursesApp.line_origin := 0; CursesApp.col_origin := 0 |})
  /\ (CursesApp.good app = true ->
      exists g, CursesApp.geometry app = Some g
        /\ (10 <= CursesApp.lines g)%Z
        /\ (12 <= CursesApp.lines g)%Z
        /\ (44 <= CursesApp.cols g)%Z
        /\ (0 <= CursesApp.line_origin g)%Z
        /\ (CursesApp.line_origin g + CursesApp.lines g <= LINES w)%Z
        /\ (0 <= CursesApp.col_origin g)%Z
        /\ (CursesApp.col_origin g + CursesApp.cols g <= COLS w)%Z)
  /\ ((LINES w < 12)%Z \/ (COLS w < 44)%Z ->
      CursesApp.good app = false
      /\ CursesApp.geometry app = None
      /\ exists made, calls w' = (calls w ++ made)%list
           /\ existsb viewport_call made = false).
Proof.
  cbv zeta. unfold CursesApp.__init__.
  unfold CursesApp.min_lines, CursesApp.min_cols,
    CursesApp.max_border_lines, CursesApp.max_border_cols, CursesApp.half.
  cbn [LINES COLS call].
  destruct (LINES w <? 12)%Z eqn:EL; destruct (COLS w <? 44)%Z eqn:EC;
    cbn [orb].
  1-3: split; [intros HL HC; rewrite HL in EL; rewrite HC in EC;
                 discriminate|]; split; [discriminate|];
       intros _; split; [reflexivity|]; split; [reflexivity|];
       eexists; split; [cbn; rewrite <- app_assoc; reflexivity|reflexivity].
  apply Z.ltb_ge in EL, EC.
  split; [|split].
  - intros HL HC. rewrite HL, HC. split; reflexivity.
  - intros _. eexists. split; [reflexivity|]. cbn.
    destruct (Z.ltb_spec 18 (LINES w)); destruct (Z.ltb_spec 64 (COLS w));
      repeat split; try lia;
      Z.to_euclidean_division_equations; lia.
  - lia.
Qed.

Lemma cleanup_clean (self : CursesApp.t) (w : World) :
  CursesApp.clean (fst (CursesApp.cleanup self w)) = true
  /\ CursesApp.good (fst (CursesApp.cleanup self w)) = false.
Proof. destruct self as [g [|] geo]; split; reflexivity. Qed.

(** A call of [cleanup] on a session already cleaned changes nothing. *)
Lemma cleanup_cleaned (self : CursesApp.t) (w : World) :
  CursesApp.clean self = true -> CursesApp.good self = false ->
  CursesApp.cleanup self w = (self, w).
Proof.
  destruct self as [g c geo]. simpl. intros -> ->. reflexivity.
Qed.

Lemma cleanups_cleaned (n : nat) :
  forall s, CursesApp.clean (fst s) = true ->
            CursesApp.good (fst s) = false ->
            cleanups n s = s.
Proof.
  induction n as [|n IH]; intros [self w] Hc Hg; [reflexivity|].
  simpl in *. rewrite cleanup_cleaned by assumption.
  apply IH; assumption.
Qed.

Lemma cleanups_succ (n : nat) (self : CursesApp.t) (w : World) :
  cleanups (S n) (self, w) = CursesApp.cleanup self w.
Proof.
  simpl. apply cleanups_cleaned; apply cleanup_clean.
Qed.

Lemma cleanups_snoc (n : nat) :
  forall s, CursesApp.cleanup (fst (cleanups n s)) (snd (cleanups n s))
            = cleanups (S n) s.
Proof.
  induction n as [|n IH]; intros s; [reflexivity|].
  change (cleanups (S n) s)
    with (cleanups n (CursesApp.cleanup (fst s) (snd s))).
  rewrite IH. reflexivity.
Qed.

(** What the constructor leaves: no restoring call among those it makes
    before a clean-up, and a session that is clean exactly when the
    constructor itself cleaned up. *)
Lemma init_calls (w : World) :
  exists made,
    calls (snd (CursesApp.__init__ w)) = (calls w ++ made)%list
    /\ ((CursesApp.clean (fst (CursesApp.__init__ w)) = false
         /\ existsb is_restore made = false)
        \/ (CursesApp.clean (fst (CursesApp.__init__ w)) = true
            /\ CursesApp.good (fst (CursesApp.__init__ w)) = false
            /\ exists before, made = (before ++ restores)%list
                 /\ existsb is_restore before = false)).
Proof.
  unfold CursesApp.__init__.
  destruct ((LINES (call _ w) <? CursesApp.min_lines)
            || (COLS (call _ w) <? CursesApp.min_cols))%Z.
  - eexists. split; [cbn; rewrite <- app_assoc; reflexivity|].
    right. split; [reflexivity|]. split; [reflexivity|].
    eexists (_ :: _ :: _ :: _ :: _ :: _ :: _ :: _ :: _ :: _ :: _ :: _ :: _
             :: _ :: _ :: _ :: nil).
    split; reflexivity.
  - eexists. split; [cbn; rewrite <- !app_assoc; reflexivity|].
    left. split; reflexivity.
Qed.

(** C9. Any number of calls of [cleanup], at least one, is one call. A
    session not yet cleaned gets exactly the restoring calls (keypad off,
    cursor shown, echo, line buffering, [endwin]), once; a cleaned one is
    left as it is. Hence for a session from the constructor to the exit
    handler, with any number of explicit calls of [cleanup] in between,
    the restoring calls are the last calls made and occur once. *)
Theorem cleanup_once (self : CursesApp.t) (w : World) (n : nat) :
  cleanups (S n) (self, w) = CursesApp.cleanup self w
  /\ (CursesApp.clean self = false ->
      calls (snd (CursesApp.cleanup self w)) = (calls w ++ restores)%list
      /\ CursesApp.clean (fst (CursesApp.cleanup self w)) = true)
  /\ (CursesApp.clean self = true -> snd (CursesApp.cleanup self w) = w)
  /\ (let s := at_exit (cleanups n (CursesApp.__init__ w)) in
      CursesApp.clean (fst s) = true
      /\ CursesApp.good (fst s) = false
      /\ exists before,
           calls (snd s) = (calls w ++ before ++ restores)%list
           /\ existsb is_restore before = false).
Proof.
  split; [apply cleanups_succ|].
  split; [|split].
  - destruct self as [g c geo]. simpl. intros ->. split; reflexivity.
  - destruct self as [g c geo]. simpl. intros ->. reflexivity.
  - cbv zeta. unfold at_exit.
    rewrite cleanups_snoc.
    destruct (CursesApp.__init__ w) as [self0 w0] eqn:E0.
    rewrite cleanups_succ.
    destruct (cleanup_clean self0 w0) as [Hc Hg].
    split; [exact Hc|]. split; [exact Hg|].
    destruct (init_calls w) as [made [Hcalls Hcase]].
    rewrite E0 in Hcalls, Hcase. simpl in Hcalls, Hcase.
    destruct Hcase as [[Hclean Hmade]|[Hclean [Hgood [before [Hb Hnb]]]]].
    + exists made. destruct self0 as [g c geo]. simpl in Hclean. subst c.
      simpl. rewrite Hcalls, <- app_assoc. split; [reflexivity|exact Hmade].
    + exists before. rewrite cleanup_cleaned by assumption. simpl.
      rewrite Hcalls, Hb. split; [reflexivity|exact Hnb].
Qed.

(** ** [select] *)

(** C8. With no item [select] returns [None] at once: it has published
    the error "Not enough items given to select from", read no event and
    made no curses call. *)
Theorem select_empty (validator : CursesApp.Validator) (prompt : string)
    (headings : option string) (cursor_index : Z)
    (events : list CursesApp.Event) (w : World) :
  let r := CursesApp.select validator prompt [] headings cursor_index
             events w in
  r = (CursesApp.Returned None, events,
       set_log (log w ++ [{| raw := "  [Error] Not enough items given to select from.";
                             level := Message_Level.error |}])%list w)
  /\ calls (snd r) = calls w.
Proof. split; reflexivity. Qed.

Lemma clamp_bounds (items : list string) (c : Z) :
  (0 < Z.of_nat (length items))%Z ->
  (0 <= CursesApp.clamp items c < Z.of_nat (length items))%Z.
Proof. unfold CursesApp.clamp. lia. Qed.

(** One pass of the loop keeps the cursor within the list. *)
Lemma iteration_bounds (validator : CursesApp.Validator) (prompt : string)
    (items : list string) (headings : option string) (c : Z)
    (events : list CursesApp.Event) (w : World) (c1 : Z)
    (events1 : list CursesApp.Event) (w1 : World) :
  (0 <= c < Z.of_nat (length items))%Z ->
  CursesApp.iteration validator prompt items headings c events w
    = CursesApp.Again c1 events1 w1 ->
  (0 <= c1 < Z.of_nat (length items))%Z.
Proof.
  intros Hc. unfold CursesApp.iteration.
  destruct events as [|[key|n] rest]; [discriminate| |].
  - destruct (CursesApp.is_key key ["j"; "KEY_DOWN"]).
    { intros H. inversion H. subst. apply clamp_bounds. lia. }
    destruct (CursesApp.is_key key ["k"; "KEY_UP"]).
    { intros H. inversion H. subst. apply clamp_bounds. lia. }
    destruct (CursesApp.is_key key ["q"]); [discriminate|].
    destruct (CursesApp.is_key key [";"; CursesApp.nl]).
    { destruct (CursesApp.index items c); [|discriminate].
      destruct (validator _ _ _) as [[[[|]|e|] rest'] w'];
        discriminate. }
    destruct rest as [|[key'|n] rest']; [discriminate| |];
      intros H; inversion H; subst; exact Hc.
  - intros H. inversion H. subst. exact Hc.
Qed.

(** C7. From a cursor within a list of [N] items, a down key moves the
    cursor to the smaller of its successor and [N - 1], an up key to the
    larger of its predecessor and [0], and every position the loop
    passes through, whatever the events, lies in [0, N - 1]. *)
Theorem select_cursor_stays_in_bounds (validator : CursesApp.Validator)
    (prompt : string) (items : list string) (headings : option string)
    (c0 : Z) (events : list CursesApp.Event) (w : World) :
  (0 <= c0 < Z.of_nat (length items))%Z ->
  let N := Z.of_nat (length items) in
  let pass key :=
    CursesApp.iteration validator prompt items headings c0
      (CursesApp.Key key :: events) w in
  let drawn :=
    CursesApp.run None
      (CursesApp.frame prompt items headings c0 w) w in
  pass "j" = CursesApp.Again (Z.min (c0 + 1) (N - 1)) events drawn
  /\ pass "KEY_DOWN" = CursesApp.Again (Z.min (c0 + 1) (N - 1)) events drawn
  /\ pass "k" = CursesApp.Again (Z.max (c0 - 1) 0) events drawn
  /\ pass "KEY_UP" = CursesApp.Again (Z.max (c0 - 1) 0) events drawn
  /\ forall c,
       visits validator prompt items headings c0 events w c ->
       (0 <= c < N)%Z.
Proof.
  intros Hc N pass drawn. subst N pass drawn.
  assert (Hdown : CursesApp.clamp items (c0 + 1)
                  = Z.min (c0 + 1) (Z.of_nat (length items) - 1)).
  { unfold CursesApp.clamp. lia. }
  assert (Hup : CursesApp.clamp items (c0 - 1) = Z.max (c0 - 1) 0).
  { unfold CursesApp.clamp. lia. }
  assert (Hpass : forall key rest,
            CursesApp.is_key key ["j"; "KEY_DOWN"] = true ->
            CursesApp.iteration validator prompt items headings c0
              (CursesApp.Key key :: rest) w
            = CursesApp.Again (CursesApp.clamp items (c0 + 1)) rest
                (CursesApp.run None
                   (CursesApp.frame prompt items headings c0 w) w)).
  { intros key rest Hk. unfold CursesApp.iteration. rewrite Hk.
    reflexivity. }
  assert (Hback : forall key rest,
            CursesApp.is_key key ["j"; "KEY_DOWN"] = false ->
            CursesApp.is_key key ["k"; "KEY_UP"] = true ->
            CursesApp.iteration validator prompt items headings c0
              (CursesApp.Key key :: rest) w
            = CursesApp.Again (CursesApp.clamp items (c0 - 1)) rest
                (CursesApp.run None
                   (CursesApp.frame prompt items headings c0 w) w)).
  { intros key rest Hj Hk. unfold CursesApp.iteration. rewrite Hj, Hk.
    reflexivity. }
  rewrite <- Hdown, <- Hup.
  split; [apply Hpass; reflexivity|].
  split; [apply Hpass; reflexivity|].
  split; [apply Hback; reflexivity|].
  split; [apply Hback; reflexivity|].
  clear Hdown Hup Hpass Hback. intros c H.
  induction H as [c events w|c events w c1 events1 w1 c2 Hstep _ IH];
    [exact Hc|].
  apply IH. eapply iteration_bounds; eassumption.
Qed.

(** C7 at a list of two items with the cursor on the last: a down key
    leaves it there. *)
Lemma select_cursor_stays_in_bounds_witness :
  (0 <= 1 < Z.of_nat (length ["a"; "b"]))%Z
  /\ CursesApp.iteration (CursesApp.lift Field.default_validator) "p"
       ["a"; "b"] None 1 [CursesApp.Key "j"]
       (boot (fun _ => Missing) (fun _ => None) 24 80)
     = CursesApp.Again 1 []
         (CursesApp.run None
            (CursesApp.frame "p" ["a"; "b"] None 1
               (boot (fun _ => Missing) (fun _ => None) 24 80))
            (boot (fun _ => Missing) (fun _ => None) 24 80)).
Proof.
  split; [simpl; lia|].
  exact (proj1 (select_cursor_stays_in_bounds
                  (CursesApp.lift Field.default_validator) "p" ["a"; "b"]
                  None 1 [] (boot (fun _ => Missing) (fun _ => None) 24 80)
                  ltac:(simpl; lia))).
Defined.

(** A pass that comes back to the top of the loop has read an event. *)
Lemma iteration_consumes (validator : CursesApp.Validator) (prompt : string)
    (items : list string) (headings : option string) (c : Z)
    (events : list CursesApp.Event) (w : World) (c1 : Z)
    (events1 : list CursesApp.Event) (w1 : World) :
  CursesApp.iteration validator prompt items headings c events w
    = CursesApp.Again c1 events1 w1 ->
  (length events1 < length events)%nat.
Proof.
  unfold CursesApp.iteration.
  destruct events as [|[key|n] rest]; [discriminate| |].
  - destruct (CursesApp.is_key key ["j"; "KEY_DOWN"]).
    { intros H. inversion H. subst. simpl. lia. }
    destruct (CursesApp.is_key key ["k"; "KEY_UP"]).
    { intros H. inversion H. subst. simpl. lia. }
    destruct (CursesApp.is_key key ["q"]); [discriminate|].
    destruct (CursesApp.is_key key [";"; CursesApp.nl]).
    { destruct (CursesApp.index items c); [|discriminate].
      destruct (validator _ _ _) as [[[[|]|e|] rest'] w'];
        discriminate. }
    destruct rest as [|[key'|n] rest']; [discriminate| |];
      intros H; inversion H; subst; simpl; lia.
  - intros H. inversion H. subst. simpl. lia.
Qed.

(** The fuel [select] gives its loop is enough: with any fuel above the
    number of events the loop gives the same result, so it never stops
    for want of fuel. *)
Lemma select_loop_fuel (validator : CursesApp.Validator) (prompt : string)
    (items : list string) (headings : option string) (fuel1 : nat) :
  forall fuel2 c events w,
    (length events < fuel1)%nat -> (length events < fuel2)%nat ->
    CursesApp.select_loop validator prompt items headings fuel1 c events w
    = CursesApp.select_loop validator prompt items headings fuel2 c events w.
Proof.
  induction fuel1 as [|fuel1 IH]; intros fuel2 c events w H1 H2; [lia|].
  destruct fuel2 as [|fuel2]; [lia|].
  simpl.
  destruct (CursesApp.iteration validator prompt items headings c events w)
    as [c1 events1 w1|r] eqn:E; [|reflexivity].
  pose proof (iteration_consumes _ _ _ _ _ _ _ _ _ _ E) as Hlt.
  apply IH; lia.
Qed.

(** ** The controller *)


Section Cancelling.

Variable interactive_device_validator : Value -> CursesApp.Validator.

(** With at least one device listed, the quit key at the device list
    makes [get_device] return [None]; the validator is not consulted. *)
Lemma get_device_cancelled (min_bytes : Value) (out heading first : string)
    (others : list string) (rest : list CursesApp.Event) (w : World) :
  commands w ["lsblk"; "--nodeps"; "--output";
              "path,size,rm,ro,pttype,ptuuid"] = Some out ->
  Str.truth out = true ->
  Str.splitlines out = heading :: first :: others ->
  fst (CursesApp.get_device interactive_device_validator min_bytes
         (CursesApp.Key "q" :: rest) w)
  = (CursesApp.Returned None, rest).
Proof.
  intros Hcmd Htruth Hlines. unfold CursesApp.get_device.
  rewrite Hcmd, Htruth, Hlines. simpl. reflexivity.
Qed.

(** C10. A [Field] with the default validator stores whatever it is
    given and returns true, [None] included; the device and time-zone
    fields are such fields. So when [get_device] returns [None], the
    device row of the controller stores [None] over whatever device the
    profile held, and [get_str] then gives the empty string. *)
Theorem cancelled_device_choice_clears_device (profile : Profile.t)
    (events rest : list CursesApp.Event) (w w1 : World) :
  aliases profile ->
  CursesApp.get_device interactive_device_validator
    (Field.get (Profile.field (fields w)
                  (Profile.attr profile Profile.min_device_bytes)))
    events w = (CursesApp.Returned None, rest, w1) ->
  (forall held value,
     Field.set (Field.__init__ held Field.default_validator) value
     = ((true, Field.__init__ value Field.default_validator), []))
  /\ Profile.validator Profile.device = Field.default_validator
  /\ Profile.validator Profile.time_zone = Field.default_validator
  /\ let r := choose_device interactive_device_validator profile events w in
     fst r = (CursesApp.Returned tt, rest)
     /\ fields (snd r) Profile.device = VNone
     /\ Field.get_str (Profile.field (fields (snd r))
                         (Profile.attr profile Profile.device)) = "".
Proof.
  intros Hp Hget.
  split; [intros held value; reflexivity|].
  split; [reflexivity|]. split; [reflexivity|].
  cbv zeta. unfold choose_device, and_then. rewrite Hget.
  rewrite (Hp Profile.device). simpl.
  split; [reflexivity|]. split; reflexivity.
Qed.

End Cancelling.

(** C10 at a profile whose device is ["/dev/sda"], with the quit key
    pressed at the device list. *)
Lemma cancelled_device_choice_clears_device_witness :
  let cmds := fun _ : list string =>
    Some ("PATH SIZE" ++ CursesApp.nl ++ "/dev/sda 100G") in
  let w := snd (Field_set Profile.device (VStr "/dev/sda")
                  (boot (fun _ => Missing) cmds 24 80)) in
  let validator := fun _ : Value => CursesApp.lift Field.default_validator in
  fields w Profile.device = VStr "/dev/sda"
  /\ fst (CursesApp.get_device validator
            (Field.get (Profile.field (fields w) Profile.min_device_bytes))
            [CursesApp.Key "q"] w)
     = (CursesApp.Returned None, [])
  /\ fields (snd (choose_device validator Profile.__init__
                    [CursesApp.Key "q"] w)) Profile.device = VNone.
Proof.
  cbv zeta. split; [reflexivity|]. split; [reflexivity|].
  refine (proj1 (proj2 (proj2 (proj2 (proj2
    (cancelled_device_choice_clears_device
       (fun _ : Value => CursesApp.lift Field.default_validator)
       Profile.__init__ [CursesApp.Key "q"] [] _
       (snd (CursesApp.get_device
               (fun _ : Value => CursesApp.lift Field.default_validator)
               (VInt 10000000000) [CursesApp.Key "q"]
               (snd (Field_set Profile.device (VStr "/dev/sda")
                       (boot (fun _ => Missing)
                          (fun _ : list string =>
                             Some ("PATH SIZE" ++ CursesApp.nl
                                   ++ "/dev/sda 100G")) 24 80)))))
       aliases_init _)))))).
  reflexivity.
Defined.

(** The same through [interactive_conf]: down twice to the device row,
    confirm, quit at the device list. The controller is back at the menu
    waiting for a key, and the device it showed is gone. *)
Example interactive_conf_cancel_clears_device :
  let cmds := fun _ : list string =>
    Some ("PATH SIZE" ++ CursesApp.nl ++ "/dev/sda 100G") in
  let w := snd (Field_set Profile.device (VStr "/dev/sda")
                  (boot (fun _ => Missing) cmds 24 80)) in
  let r := interactive_conf
             (fun _ : Value => CursesApp.lift Field.default_validator)
             Profile.__init__
             [CursesApp.Key "j"; CursesApp.Key "j";
              CursesApp.Key CursesApp.nl; CursesApp.Key "q"] w in
  fst r = (CursesApp.Blocked, [])
  /\ fields (snd (snd r)) Profile.device = VNone
  /\ Field.get_str (Profile.field (fields (snd (snd r))) Profile.device) = "".
Proof. vm_compute. repeat split; reflexivity. Qed.
(** ** The validators, character by character *)

Lemma every_ascii (P : ascii -> Prop) :
  (forall b0 b1 b2 b3 b4 b5 b6 b7, P (Ascii b0 b1 b2 b3 b4 b5 b6 b7)) ->
  forall c, P c.
Proof. intros H [b0 b1 b2 b3 b4 b5 b6 b7]. apply H. Qed.

Lemma printable_ascii7_plain (c : ascii) :
  Str.printable c && Str.ascii7 c = plain c.
Proof.
  revert c. apply every_ascii.
  intros [] [] [] [] [] [] [] []; reflexivity.
Qed.

Lemma forallb_andb {A : Type} (f g : A -> bool) (l : list A) :
  forallb f l && forallb g l = forallb (fun x => f x && g x) l.
Proof.
  induction l as [|x l IH]; [reflexivity|]. simpl. rewrite <- IH.
  destruct (f x), (g x), (forallb f l); reflexivity.
Qed.

Lemma forallb_eq {A : Type} (f g : A -> bool) (l : list A) :
  (forall x, f x = g x) -> forallb f l = forallb g l.
Proof.
  intros H. induction l as [|x l IH]; [reflexivity|]. simpl.
  rewrite H, IH. reflexivity.
Qed.

Lemma existsb_eq {A : Type} (f g : A -> bool) (l : list A) :
  (forall x, f x = g x) -> existsb f l = existsb g l.
Proof.
  intros H. induction l as [|x l IH]; [reflexivity|]. simpl.
  rewrite H, IH. reflexivity.
Qed.

Lemma chars_replace (old : ascii) (s : string) :
  Str.chars (Str.replace old s)
  = filter (fun c => negb (Ascii.eqb c old)) (Str.chars s).
Proof.
  induction s as [|c s IH]; [reflexivity|]. simpl.
  destruct (Ascii.eqb c old); simpl; [exact IH|].
  unfold Str.chars in *. simpl. rewrite IH. reflexivity.
Qed.

Lemma forallb_filter {A : Type} (f p : A -> bool) (l : list A) :
  forallb f (filter p l) = forallb (fun x => negb (p x) || f x) l.
Proof.
  induction l as [|x l IH]; [reflexivity|]. simpl.
  destruct (p x); simpl; rewrite IH; reflexivity.
Qed.

Lemma existsb_filter {A : Type} (f p : A -> bool) (l : list A) :
  existsb f (filter p l) = existsb (fun x => p x && f x) l.
Proof.
  induction l as [|x l IH]; [reflexivity|]. simpl.
  destruct (p x); simpl; rewrite IH; reflexivity.
Qed.


Lemma truth_chars (s : string) : Str.truth s = nonempty (Str.chars s).
Proof. destruct s; reflexivity. Qed.

Lemma existsb_nonempty {A : Type} (f : A -> bool) (l : list A) :
  existsb f l = true -> nonempty l = true.
Proof. destruct l; [discriminate | reflexivity]. Qed.

Lemma len_chars (s : string) : Str.len s = length (Str.chars s).
Proof.
  unfold Str.len, Str.chars.
  induction s as [|c s IH]; [reflexivity|]. simpl. rewrite IH.
  reflexivity.
Qed.

Lemma boot_label_validator_bool (value : string) :
  fst (Field.boot_label_validator value)
  = Str.truth value && forallb plain (Str.chars value).
Proof.
  unfold Field.boot_label_validator, Str.isprintable, Str.isascii.
  rewrite forallb_andb.
  rewrite (forallb_eq _ plain) by apply printable_ascii7_plain.
  destruct (Str.truth value); simpl; [|reflexivity].
  destruct (forallb plain (Str.chars value)); reflexivity.
Qed.

(** The boot-label validator accepts exactly the strings that are not
    empty and made of the characters U+0020..U+007E; the password
    validator answers the same on every string. *)
Theorem boot_label_validator_spec (value : string) :
  (fst (Field.boot_label_validator value) = true <->
     value <> "" /\ Forall (fun c => plain c = true) (Str.chars value))
  /\ fst (Field.password_validator value)
     = fst (Field.boot_label_validator value).
Proof.
  split.
  - rewrite boot_label_validator_bool, andb_true_iff, truth_true_iff,
      forallb_Forall_true. tauto.
  - unfold Field.boot_label_validator, Field.password_validator.
    destruct (negb (Str.truth value)); [reflexivity|].
    destruct (negb (Str.isprintable value && Str.isascii value));
      reflexivity.
Qed.




Lemma alnum_not_mark (c : ascii) :
  negb (Ascii.eqb c "-") && (negb (Ascii.eqb c "_") && alnum c) = alnum c.
Proof.
  revert c. apply every_ascii.
  intros [] [] [] [] [] [] [] []; reflexivity.
Qed.

Lemma nonempty_forallb {A : Type} (f : A -> bool) (l : list A) :
  nonempty l && forallb f l = existsb f l && forallb f l.
Proof.
  destruct l as [|x l]; [reflexivity|]. simpl.
  destruct (f x); simpl; [reflexivity|]. rewrite andb_false_r.
  reflexivity.
Qed.

Lemma negb_forallb {A : Type} (f : A -> bool) (l : list A) :
  negb (forallb f l) = existsb (fun x => negb (f x)) l.
Proof.
  induction l as [|x l IH]; [reflexivity|]. simpl.
  rewrite negb_andb, IH. reflexivity.
Qed.

Lemma name_validator_bool (value : string) :
  fst (Field.name_validator value)
  = (Str.len value <=? 32)%nat
    && negb (Str.startswith "-" value)
    && forallb name_char (Str.chars value)
    && existsb (fun c => negb (Str.numeric c)) (Str.chars value)
    && existsb alnum (Str.chars value).
Proof.
  unfold Field.name_validator, Str.isalnum, Str.isnumeric.
  rewrite (truth_chars (Str.replace "_" (Str.replace "-" value))).
  rewrite !chars_replace, nonempty_forallb.
  fold alnum.
  rewrite !existsb_filter, !forallb_filter.
  rewrite (existsb_eq _ alnum) by apply alnum_not_mark.
  rewrite (forallb_eq
             (fun x => negb (negb (Ascii.eqb x "-"))
                       || (negb (negb (Ascii.eqb x "_")) || alnum x))
             name_char).
  2:{ intros x. unfold name_char.
      destruct (Ascii.eqb x "-"), (Ascii.eqb x "_"), (alnum x);
        reflexivity. }
  rewrite <- negb_forallb, Nat.leb_antisym, truth_chars.
  set (l := Str.chars value).
  destruct (existsb alnum l) eqn:E.
  - rewrite (existsb_nonempty _ _ E). simpl.
    destruct (forallb Str.numeric l); simpl;
      [rewrite !andb_false_r; reflexivity|].
    destruct (Str.startswith "-" value); simpl;
      [rewrite !andb_false_r; reflexivity|].
    destruct (32 <? Str.len value)%nat; simpl; [reflexivity|].
    destruct (forallb name_char l); reflexivity.
  - rewrite !andb_false_r. simpl.
    destruct (negb (nonempty l)); [reflexivity|].
    destruct (nonempty l && forallb Str.numeric l); [reflexivity|].
    destruct (Str.startswith "-" value); [reflexivity|].
    destruct (32 <? Str.len value)%nat; reflexivity.
Qed.

(** The name validator accepts exactly the strings of at most 32
    characters that do not start with a hyphen, are made of hyphens,
    underscores, letters and numeric characters, and hold a character
    that is not numeric and a character that is a letter or numeric. *)
Theorem name_validator_spec (value : string) :
  fst (Field.name_validator value) = true <->
    (Str.len value <= 32)%nat
    /\ Str.startswith "-" value = false
    /\ Forall (fun c => name_char c = true) (Str.chars value)
    /\ (exists c, In c (Str.chars value) /\ Str.numeric c = false)
    /\ (exists c, In c (Str.chars value) /\ alnum c = true).
Proof.
  rewrite name_validator_bool, !andb_true_iff, Nat.leb_le,
    forallb_Forall_true, !existsb_exists, negb_true_iff.
  split.
  - intros [[[[H1 H2] H3] [c [Hc Hn]]] H5].
    repeat split; try assumption.
    exists c. split; [exact Hc|]. apply negb_true_iff. exact Hn.
  - intros [H1 [H2 [H3 [[c [Hc Hn]] H5]]]].
    repeat split; try assumption.
    exists c. split; [exact Hc|]. apply negb_true_iff. exact Hn.
Qed.

(** Every validator of the class body publishes nothing when it accepts
    and exactly one message, of level error, when it rejects. *)
Theorem validators_publish_on_rejection_only (n : Profile.name)
    (value : string) :
  Profile.validator n value = (true, [])
  \/ exists text,
       Profile.validator n value
       = (false, [{| raw := "  [Error] " ++ text ++ ".";
                      level := Message_Level.error |}]).
Proof.
  destruct n; simpl;
    unfold Field.default_validator, Field.numeric_validator,
      Field.boot_label_validator, Field.hostname_validator,
      Field.name_validator, Field.password_validator;
    repeat match goal with
           | |- context [if ?b then _ else _] => destruct b
           end;
    try (left; reflexivity); right; eexists; reflexivity.
Qed.

(** ** The queue and the drawing of a frame *)

Lemma same_machine_refl (w : World) : same_machine w w.
Proof. repeat split. Qed.

Lemma same_machine_trans (w1 w2 w3 : World) :
  same_machine w1 w2 -> same_machine w2 w3 -> same_machine w1 w3.
Proof.
  unfold same_machine.
  intros [A1 [A2 [A3 [A4 A5]]]] [B1 [B2 [B3 [B4 B5]]]].
  repeat split; congruence.
Qed.

Lemma same_machine_emit {A : Type} (m : Emit A) (w : World) :
  same_machine w (snd (emit m w)).
Proof. repeat split. Qed.

Lemma same_machine_get_next_log (w : World) :
  same_machine w (snd (get_next_log w)).
Proof. unfold get_next_log. destruct (log w); repeat split. Qed.

Lemma same_machine_run (steps : list CursesApp.Step) :
  forall fault w, same_machine w (CursesApp.run fault steps w).
Proof.
  induction steps as [|[c|] steps IH]; intros fault w; simpl.
  - apply same_machine_refl.
  - destruct fault as [[|n]|]; [apply same_machine_refl| |];
      (eapply same_machine_trans; [|apply IH]); repeat split.
  - eapply same_machine_trans; [apply same_machine_get_next_log|apply IH].
Qed.

Lemma run_app (a b : list CursesApp.Step) :
  forall w, CursesApp.run None (a ++ b) w
            = CursesApp.run None b (CursesApp.run None a w).
Proof.
  induction a as [|[c|] a IH]; intros w; simpl; [reflexivity| |];
    apply IH.
Qed.

Lemma run_draws (steps : list CursesApp.Step) :
  forallb is_draw steps = true ->
  forall w, log (CursesApp.run None steps w) = log w
            /\ log_file (CursesApp.run None steps w) = log_file w.
Proof.
  induction steps as [|[c|] steps IH]; simpl; intros H w;
    [split; reflexivity| |discriminate].
  destruct (IH H (call [c] w)) as [H1 H2]. rewrite H1, H2.
  split; reflexivity.
Qed.

Lemma item_steps_draw (items : list string) :
  forall c first, forallb is_draw (CursesApp.item_steps c first items) = true.
Proof.
  induction items as [|item items IH]; intros c first; simpl;
    [reflexivity|apply IH].
Qed.

(** Showing the queued messages takes each of them off the queue. *)
Lemma run_log_steps (queue : list Message) :
  forall later w,
    log w = (queue ++ later)%list ->
    log (CursesApp.run None (CursesApp.log_steps queue) w) = later
    /\ log_file (CursesApp.run None (CursesApp.log_steps queue) w)
       = option_map (fun written => (written ++ map log_line queue)%list)
           (log_file w).
Proof.
  induction queue as [|m queue IH]; intros later w Hlog.
  - simpl. split; [exact Hlog|].
    destruct (log_file w); simpl; [rewrite app_nil_r|]; reflexivity.
  - simpl. unfold get_next_log at 1 2. rewrite Hlog. simpl.
    match goal with
    | |- context [CursesApp.run None (CursesApp.log_steps queue ++ []) ?w0] =>
        destruct (IH later w0) as [H1 H2]; [reflexivity|]
    | |- context [CursesApp.run None (CursesApp.log_steps queue) ?w0] =>
        destruct (IH later w0) as [H1 H2]; [reflexivity|]
    end.
    rewrite H1, H2. split; [reflexivity|]. simpl.
    destruct (log_file w); simpl; [|reflexivity].
    unfold log_line. rewrite <- app_assoc. reflexivity.
Qed.

Lemma frame_shape (prompt : string) (items : list string)
    (headings : option string) (cursor_index : Z) (w : World) :
  exists before,
    forallb is_draw before = true
    /\ CursesApp.frame prompt items headings cursor_index w
       = (before ++ CursesApp.log_steps (log w)
          ++ [CursesApp.Draw (curses.refresh curses.win)])%list.
Proof.
  exists ([CursesApp.Draw (curses.clear curses.win);
           CursesApp.Draw
             (curses.addstr curses.win
                (prompt ++ CursesApp.nl ++ CursesApp.nl))]
          ++ match headings with
             | Some h =>
                 if Str.truth h
                 then [CursesApp.Draw
                         (curses.addstr curses.win
                            ("     " ++ h ++ CursesApp.nl))]
                 else []
             | None => []
             end
          ++ CursesApp.item_steps cursor_index 0 items
          ++ [CursesApp.Draw (curses.addstr curses.win CursesApp.nl)])%list.
  split.
  - rewrite !forallb_app, item_steps_draw.
    destruct headings as [h|]; [destruct (Str.truth h)|]; reflexivity.
  - unfold CursesApp.frame. rewrite <- !app_assoc. reflexivity.
Qed.

(** A frame of [select] that is drawn to its end has shown every queued
    message: the queue is empty afterwards, the log file, when one is
    open, has one line more for each message, in the order they were
    published, and nothing but the queue, the log file and the screen
    has changed. *)
Theorem frame_drains_log (prompt : string) (items : list string)
    (headings : option string) (cursor_index : Z) (w : World) :
  let w' := CursesApp.run None
              (CursesApp.frame prompt items headings cursor_index w) w in
  log w' = []
  /\ log_file w'
     = option_map (fun written => (written ++ map log_line (log w))%list)
         (log_file w)
  /\ same_machine w w'.
Proof.
  cbv zeta. split; [|split]; [| |apply same_machine_run];
    destruct (frame_shape prompt items headings cursor_index w)
      as [before [Hdraw ->]];
    rewrite !run_app;
    destruct (run_draws before Hdraw w) as [Hlog Hfile];
    destruct (run_log_steps (log w) [] (CursesApp.run None before w))
      as [H1 H2];
    try (rewrite app_nil_r; exact Hlog); simpl.
  - exact H1.
  - rewrite H2, Hfile. reflexivity.
Qed.

(** ** What [select] returns *)

Lemma index_in_range {A : Type} (l : list A) (i : Z) :
  (0 <= i < Z.of_nat (length l))%Z ->
  CursesApp.index l i = nth_error l (Z.to_nat i)
  /\ exists x, nth_error l (Z.to_nat i) = Some x.
Proof.
  intros Hi. unfold CursesApp.index.
  destruct (Z.leb_spec 0 i); [|lia].
  destruct (Z.ltb_spec i (Z.of_nat (length l))); [|lia].
  split; [reflexivity|].
  destruct (nth_error l (Z.to_nat i)) as [x|] eqn:E; [exists x; reflexivity|].
  apply nth_error_None in E. lia.
Qed.

(** A pass that leaves [select] with an index has read a confirming key
    at that index and the validator has accepted the item there. *)
Lemma iteration_leaves_accepted (validator : CursesApp.Validator)
    (prompt : string) (items : list string) (headings : option string)
    (c : Z) (events : list CursesApp.Event) (w : World) (i : Z)
    (rest : list CursesApp.Event) (w' : World) :
  CursesApp.iteration validator prompt items headings c events w
    = CursesApp.Leave (CursesApp.Returned (Some i), rest, w') ->
  i = c
  /\ exists item events0 w0,
       CursesApp.index items c = Some item
       /\ validator item events0 w0 = (CursesApp.Returned true, rest, w').
Proof.
  unfold CursesApp.iteration.
  destruct events as [|[key|n] rest0]; [discriminate| |discriminate].
  destruct (CursesApp.is_key key ["j"; "KEY_DOWN"]); [discriminate|].
  destruct (CursesApp.is_key key ["k"; "KEY_UP"]); [discriminate|].
  destruct (CursesApp.is_key key ["q"]); [discriminate|].
  destruct (CursesApp.is_key key [";"; CursesApp.nl]).
  - destruct (CursesApp.index items c) as [item|]; [|discriminate].
    destruct (validator item rest0 _) as [[[[|]|e|] rest1] w1] eqn:Ev;
      try discriminate.
    intros H. inversion H. subst. split; [reflexivity|].
    exists item. eexists. eexists. split; [reflexivity|exact Ev].
  - destruct rest0 as [|[key'|n] rest1]; discriminate.
Qed.

Lemma select_loop_accepted (validator : CursesApp.Validator)
    (prompt : string) (items : list string) (headings : option string)
    (fuel : nat) :
  forall c events w i rest w',
    (0 <= c < Z.of_nat (length items))%Z ->
    CursesApp.select_loop validator prompt items headings fuel c events w
      = (CursesApp.Returned (Some i), rest, w') ->
    (0 <= i < Z.of_nat (length items))%Z
    /\ exists item events0 w0,
         CursesApp.index items i = Some item
         /\ validator item events0 w0 = (CursesApp.Returned true, rest, w').
Proof.
  induction fuel as [|fuel IH]; intros c events w i rest w' Hc;
    [discriminate|].
  simpl.
  destruct (CursesApp.iteration validator prompt items headings c events w)
    as [c1 events1 w1|r] eqn:E.
  - apply IH. eapply iteration_bounds; eassumption.
  - intros ->. apply iteration_leaves_accepted in E.
    destruct E as [-> H]. split; assumption.
Qed.

(** When [select], started within the list, returns an index, the index
    lies within the list and the validator has accepted the item at it. *)
Theorem select_returns_accepted_item (validator : CursesApp.Validator)
    (prompt : string) (items : list string) (headings : option string)
    (c : Z) (events : list CursesApp.Event) (w : World) (i : Z)
    (rest : list CursesApp.Event) (w' : World) :
  (0 <= c < Z.of_nat (length items))%Z ->
  CursesApp.select validator prompt items headings c events w
    = (CursesApp.Returned (Some i), rest, w') ->
  (0 <= i < Z.of_nat (length items))%Z
  /\ exists item events0 w0,
       nth_error items (Z.to_nat i) = Some item
       /\ validator item events0 w0 = (CursesApp.Returned true, rest, w').
Proof.
  intros Hc. unfold CursesApp.select.
  destruct (length items <=? 0)%nat; [discriminate|].
  intros H. apply select_loop_accepted in H; [|exact Hc].
  destruct H as [Hi [item [events0 [w0 [Hidx Hv]]]]].
  split; [exact Hi|].
  rewrite (proj1 (index_in_range items i Hi)) in Hidx.
  exists item, events0, w0. split; assumption.
Qed.

(** At a list of two items: down, then confirm, returns the index 1. *)
Lemma select_returns_accepted_item_witness :
  (0 <= 0 < Z.of_nat (length ["a"; "b"]))%Z
  /\ (0 <= 1 < Z.of_nat (length ["a"; "b"]))%Z.
Proof.
  split; [simpl; lia|].
  refine (proj1 (select_returns_accepted_item
                   (CursesApp.lift Field.default_validator) "p" ["a"; "b"]
                   None 0 [CursesApp.Key "j"; CursesApp.Key ";"]
                   (boot (fun _ => Missing) (fun _ => None) 24 80) 1 [] _
                   ltac:(simpl; lia) _)).
  reflexivity.
Defined.





(** ** What [load_profile] changes *)

Lemma of_key_sound (k : string) (n : Profile.name) :
  Profile.of_key k = Some n -> Profile.key n = k.
Proof.
  unfold Profile.of_key. intros H. apply find_some in H.
  destruct H as [_ H]. apply String.eqb_eq in H. exact H.
Qed.

Lemma bound_init : bound Profile.__init__.
Proof. intros k n H. discriminate. Qed.

Section LoadEffects.

Variable other_attr : string -> bool.

Lemma getattr_bound (profile : Profile.t) (k : string) (n : Profile.name) :
  bound profile ->
  Profile.getattr other_attr profile k = Some (Profile.AField n) ->
  Profile.of_key k = Some n.
Proof.
  intros Hb. unfold Profile.getattr.
  destruct (Profile.lookup k profile) as [m|] eqn:E.
  - intros H. inversion H. subst. apply Hb. exact E.
  - destruct (Profile.of_key k) as [m|]; [congruence|].
    destruct (other_attr k); discriminate.
Qed.

Lemma bound_rebind (profile : Profile.t) (k : string) (n : Profile.name) :
  bound profile ->
  Profile.getattr other_attr profile k = Some (Profile.AField n) ->
  bound (Profile.setattr profile k n).
Proof.
  intros Hb Hget k' n'. unfold Profile.setattr. simpl.
  destruct (String.eqb k k') eqn:E.
  - apply String.eqb_eq in E. subst k'. intros H. inversion H. subst.
    eapply getattr_bound; eassumption.
  - apply Hb.
Qed.

(** The loop assigns only to fields a key of the document names. *)
Lemma load_items_frame (items : list (string * Value)) :
  forall profile w n,
    bound profile ->
    ~ In (Profile.key n) (map fst items) ->
    fields (snd (load_items other_attr items profile w)) n = fields w n.
Proof.
  induction items as [|[k value] rest IH]; intros profile w n Hb Hn;
    [reflexivity|].
  simpl in Hn. simpl. unfold Profile.hasattr.
  destruct (Profile.getattr other_attr profile k) as [[m|]|] eqn:Hget.
  - assert (Hm : n <> m).
    { intros ->. apply Hn. left. symmetry. apply of_key_sound.
      eapply getattr_bound; eassumption. }
    pose proof (Field_set_frame m n value w Hm) as Hset.
    destruct (Field_set m value w) as [ok w1]. simpl in Hset.
    destruct ok.
    + rewrite IH; [exact Hset|eapply bound_rebind; eassumption|tauto].
    + destruct value; simpl; try exact Hset.
      rewrite IH; [exact Hset|eapply bound_rebind; eassumption|tauto].
  - reflexivity.
  - rewrite IH; [reflexivity|exact Hb|tauto].
Qed.

Lemma Field_set_valid (m : Profile.name) (value : Value) (w : World) :
  all_valid (fields w) -> all_valid (fields (snd (Field_set m value w))).
Proof.
  intros Hv n. rewrite Field_set_unfold. unfold holds_valid. simpl.
  unfold Profile.update.
  destruct (Profile.name_eqb n m) eqn:E; [|apply Hv].
  apply name_eqb_eq in E. subst n.
  destruct (fst (Profile.validator m (str value))) eqn:Ev;
    [exact Ev|apply Hv].
Qed.

Lemma load_items_valid (items : list (string * Value)) :
  forall profile w,
    all_valid (fields w) ->
    all_valid (fields (snd (load_items other_attr items profile w))).
Proof.
  induction items as [|[k value] rest IH]; intros profile w Hv;
    [exact Hv|].
  simpl. unfold Profile.hasattr.
  destruct (Profile.getattr other_attr profile k) as [[m|]|] eqn:Hget.
  - pose proof (Field_set_valid m value w Hv) as Hset.
    destruct (Field_set m value w) as [ok w1]. simpl in Hset.
    destruct ok; [apply IH; exact Hset|].
    destruct value; simpl; try exact Hset. apply IH. exact Hset.
  - exact Hv.
  - apply IH. exact Hv.
Qed.

(** A field no key of the document names holds after [load_profile] what
    it held before, whether a profile is returned or not. *)
Theorem load_profile_keeps_unnamed_fields (path : string) (w : World)
    (n : Profile.name) :
  (forall items, fs w path = Document (JObject items) ->
                 ~ In (Profile.key n) (map fst items)) ->
  fields (snd (load_profile other_attr path w)) n = fields w n.
Proof.
  intros H. unfold load_profile.
  destruct (fs w path) as [| | |[items|]] eqn:E; try reflexivity.
  pose proof (load_items_frame items Profile.__init__ w n bound_init
                (H items eq_refl)) as Hf.
  destruct (load_items other_attr items Profile.__init__ w) as [[p|e] w'];
    exact Hf.
Qed.

(** [load_profile] keeps the invariant of the class: when every field
    holds a value its validator accepts, so does every field afterwards,
    whatever the document and whether a profile is returned or not. *)
Theorem load_profile_keeps_fields_valid (path : string) (w : World) :
  all_valid (fields w) ->
  all_valid (fields (snd (load_profile other_attr path w))).
Proof.
  intros Hv. unfold load_profile.
  destruct (fs w path) as [| | |[items|]]; try exact Hv.
  pose proof (load_items_valid items Profile.__init__ w Hv) as Hf.
  destruct (load_items other_attr items Profile.__init__ w) as [[p|e] w'];
    exact Hf.
Qed.

(** A load that fails does not undo what it has assigned: a value the
    first key of the document stores stays in its field when a later
    key makes [load_profile] return [None]. *)
Theorem load_profile_does_not_roll_back (path : string) (w : World)
    (n : Profile.name) (value : Value) (rest : list (string * Value)) :
  fs w path = Document (JObject ((Profile.key n, value) :: rest)) ->
  fst (Profile.validator n (str value)) = true ->
  ~ In (Profile.key n) (map fst rest) ->
  fields (snd (load_profile other_attr path w)) n = value.
Proof.
  intros Hfs Hok Hn. unfold load_profile. rewrite Hfs. simpl.
  unfold Profile.hasattr, Profile.getattr. simpl. rewrite of_key_key.
  rewrite Field_set_unfold, Hok.
  match goal with
  | |- context [load_items other_attr rest ?p ?w0] =>
      pose proof (load_items_frame rest p w0 n) as Hf;
      destruct (load_items other_attr rest p w0) as [[q|e] w'] eqn:E
  end;
    simpl in *; rewrite Hf; try assumption;
    try apply update_same;
    intros k m; simpl;
    (destruct (String.eqb (Profile.key n) k) eqn:Ek; [|discriminate]);
    apply String.eqb_eq in Ek; subst k; intros H; inversion H; subst;
    apply of_key_key.
Qed.

End LoadEffects.

(** At the document [{"hostname": "node1"}]: the hostname is loaded and the user name keeps its default. *)
Lemma load_profile_keeps_unnamed_fields_witness :
  let w := boot (fun _ => Document (JObject [("hostname", VStr "node1")]))
                (fun _ => None) 24 80 in
  fields (snd (load_profile (fun _ => false) "profile.json" w))
    Profile.hostname = VStr "node1"
  /\ fields (snd (load_profile (fun _ => false) "profile.json" w))
       Profile.username = VStr "main".
Proof.
  cbv zeta. split; [reflexivity|].
  rewrite (load_profile_keeps_unnamed_fields (fun _ => false)
             "profile.json"
             (boot (fun _ => Document (JObject [("hostname", VStr "node1")]))
                   (fun _ => None) 24 80) Profile.username).
  - reflexivity.
  - intros items H. inversion H. simpl. intros [Hk|[]]. discriminate.
Defined.

(** From the defaults, at a document with a hostname the validator rejects and a user name it accepts. *)
Lemma load_profile_keeps_fields_valid_witness :
  let w := boot (fun _ => Document
                   (JObject [("hostname", VStr "My-Host");
                             ("username", VStr "admin")]))
                (fun _ => None) 24 80 in
  all_valid (fields w)
  /\ all_valid (fields (snd (load_profile (fun _ => false) "profile.json"
                               w)))
  /\ fields (snd (load_profile (fun _ => false) "profile.json" w))
       Profile.hostname = VStr "arch"
  /\ fields (snd (load_profile (fun _ => false) "profile.json" w))
       Profile.username = VStr "admin".
Proof.
  cbv zeta. split; [exact defaults_valid|].
  split; [|split; reflexivity].
  apply (load_profile_keeps_fields_valid (fun _ => false) "profile.json").
  exact defaults_valid.
Defined.

(** At the document [{"hostname": "node1", "min_device_bytes": -5}]: no profile is returned, and the hostname has changed. *)
Lemma load_profile_does_not_roll_back_witness :
  let w := boot (fun _ => Document
                   (JObject [("hostname", VStr "node1");
                             ("min_device_bytes", VInt (-5))]))
                (fun _ => None) 24 80 in
  fst (load_profile (fun _ => false) "profile.json" w) = None
  /\ fields (snd (load_profile (fun _ => false) "profile.json" w))
       Profile.hostname = VStr "node1".
Proof.
  cbv zeta. split; [reflexivity|].
  apply (load_profile_does_not_roll_back (fun _ => false) "profile.json"
           (boot (fun _ => Document
                    (JObject [("hostname", VStr "node1");
                              ("min_device_bytes", VInt (-5))]))
                 (fun _ => None) 24 80)
           Profile.hostname (VStr "node1")
           [("min_device_bytes", VInt (-5))]).
  - reflexivity.
  - reflexivity.
  - simpl. intros [H|[]]. discriminate.
Defined.

Lemma Field_set_publishes (n : Profile.name) (value : Value) (w : World) :
  publishes w (snd (Field_set n value w)).
Proof.
  rewrite Field_set_unfold. unfold publishes. simpl.
  repeat split. eexists. reflexivity.
Qed.

Lemma publishes_refl (w : World) : publishes w w.
Proof.
  unfold publishes. repeat split. exists []. rewrite app_nil_r. reflexivity.
Qed.

Lemma publishes_trans (w1 w2 w3 : World) :
  publishes w1 w2 -> publishes w2 w3 -> publishes w1 w3.
Proof.
  unfold publishes.
  intros [A1 [A2 [A3 [A4 [A5 [A6 [m1 A7]]]]]]]
         [B1 [B2 [B3 [B4 [B5 [B6 [m2 B7]]]]]]].
  repeat split; try congruence.
  exists (m1 ++ m2)%list. rewrite B7, A7, app_assoc. reflexivity.
Qed.

Lemma publishes_emit {A : Type} (m : Emit A) (w : World) :
  publishes w (snd (emit m w)).
Proof. unfold publishes. simpl. repeat split. eexists. reflexivity. Qed.

Lemma publishes_set_log (more : list Message) (w : World) :
  publishes w (set_log (log w ++ more)%list w).
Proof. unfold publishes. simpl. repeat split. eexists. reflexivity. Qed.

Lemma load_items_publishes (other_attr : string -> bool)
    (items : list (string * Value)) :
  forall profile w,
    publishes w (snd (load_items other_attr items profile w)).
Proof.
  induction items as [|[k value] rest IH]; intros profile w;
    [apply publishes_refl|].
  simpl. unfold Profile.hasattr.
  destruct (Profile.getattr other_attr profile k) as [[m|]|] eqn:Hget.
  - pose proof (Field_set_publishes m value w) as Hset.
    destruct (Field_set m value w) as [ok w1]. simpl in Hset.
    destruct ok; [eapply publishes_trans; [exact Hset|apply IH]|].
    destruct value; simpl; try exact Hset.
    eapply publishes_trans; [exact Hset|].
    eapply publishes_trans; [|apply IH]. apply publishes_set_log.
  - apply publishes_refl.
  - eapply publishes_trans; [|apply IH]. apply publishes_set_log.
Qed.

(** [load_profile] writes no file, makes no curses call and takes no
    message off the queue; and when it returns [None] the newest message
    on the queue is the error that names the path. *)
Theorem load_profile_reports_failure (other_attr : string -> bool)
    (path : string) (w : World) :
  let r := load_profile other_attr path w in
  publishes w (snd r)
  /\ (fst r = None ->
      exists earlier, log (snd r) = (earlier ++ [read_failure path])%list).
Proof.
  cbv zeta. unfold load_profile.
  destruct (fs w path) as [| | |[items|]];
    try (split; [apply publishes_emit|intros _; eexists; reflexivity]).
  pose proof (load_items_publishes other_attr items Profile.__init__ w)
    as Hp.
  destruct (load_items other_attr items Profile.__init__ w) as [[p|e] w'];
    simpl in *.
  - split; [exact Hp|discriminate].
  - split; [|intros _; eexists; reflexivity].
    eapply publishes_trans; [exact Hp|].
    apply (publishes_emit (error ("Failed to read the profile from "
                                  ++ path)) w').
Qed.

(** [dump_profile] sets no field and touches no path but the one it is
    given; it fails exactly when that path cannot be opened, and then it
    changes no file and publishes one error. *)
Theorem dump_profile_effects (profile : Profile.t) (path : string)
    (w : World) :
  let r := dump_profile profile path w in
  fields (snd r) = fields w
  /\ (forall p, p <> path -> fs (snd r) p = fs w p)
  /\ (fst r = false <-> fs w path = Denied)
  /\ (fst r = true -> log (snd r) = log w)
  /\ (fst r = false ->
      fs (snd r) = fs w
      /\ log (snd r)
         = (log w ++ [{| raw := "  [Error] Failed to write the profile to "
                                ++ path ++ ".";
                         level := Message_Level.error |}])%list).
Proof.
  cbv zeta. unfold dump_profile.
  assert (Hw : forall doc p, p <> path ->
                 fs (write_file path doc w) p = fs w p).
  { intros doc p Hp. unfold write_file. simpl.
    destruct (String.eqb p path) eqn:E; [|reflexivity].
    apply String.eqb_eq in E. contradiction. }
  destruct (fs w path) eqn:E; simpl;
    (split; [reflexivity|]);
    (split; [first [intros p Hp; apply Hw; exact Hp | reflexivity]|]);
    (split; [split; intros H; first [discriminate H | reflexivity] |]);
    (split; [intros H; first [discriminate H | reflexivity]|]);
    intros H; first [discriminate H | split; reflexivity].
Qed.

(** ** [input] *)

Lemma append_assoc_cons (a : string) (c : ascii) (b : string) :
  (a ++ String c "") ++ b = a ++ String c b.
Proof. induction a as [|x a IH]; simpl; [|rewrite IH]; reflexivity. Qed.

(** The loop of [input] at a key. *)
Lemma input_loop_key (field : Profile.name) (prompt response key : string)
    (rest : list CursesApp.Event) (w : World) :
  exists w1,
    same_machine w w1
    /\ CursesApp.input_loop field prompt response
         (CursesApp.Key key :: rest) w
       = if String.eqb key CursesApp.nl then
           (CursesApp.Returned tt, rest,
            snd (Field_set field (VStr response) w1))
         else
           CursesApp.input_loop field prompt
             (let response :=
                if (Str.len key =? 1)%nat then response ++ key
                else response in
              if String.eqb key "KEY_BACKSPACE"
              then CursesApp.drop_last response else response)
             rest w1.
Proof.
  exists (call CursesApp._hide_cursor
            (CursesApp.run None
               ([CursesApp.Draw (curses.clear curses.win);
                 CursesApp.Draw
                   (curses.addstr curses.win
                      (prompt ++ CursesApp.nl ++ CursesApp.nl ++ ": "
                       ++ response));
                 CursesApp.Draw (curses.refresh curses.win)]
                ++ map CursesApp.Draw CursesApp._show_cursor) w)).
  split.
  - eapply same_machine_trans; [apply same_machine_run|]. repeat split.
  - cbn [CursesApp.input_loop].
    destruct (String.eqb key CursesApp.nl); [|reflexivity].
    destruct (Field_set field (VStr response) _). reflexivity.
Qed.


Lemma Field_set_fields (n : Profile.name) (value : Value) (w w1 : World) :
  same_machine w w1 ->
  fields (snd (Field_set n value w1))
  = Profile.update (fields w) n
      (if fst (Profile.validator n (str value)) then value else fields w n).
Proof.
  intros [Hf _]. rewrite Field_set_unfold. simpl. rewrite Hf. reflexivity.
Qed.

Lemma input_loop_typed (field : Profile.name) (prompt : string)
    (rest : list CursesApp.Event) (typed : list ascii) :
  forall response w0 w,
    same_machine w0 w ->
    Forall (fun c => c <> "010"%char) typed ->
    let text := response ++ string_of_list_ascii typed in
    let r := CursesApp.input_loop field prompt response
               (map (fun c => CursesApp.Key (String c "")) typed
                ++ CursesApp.Key CursesApp.nl :: rest) w in
    fst r = (CursesApp.Returned tt, rest)
    /\ fields (snd r)
       = Profile.update (fields w0) field
           (if fst (Profile.validator field text) then VStr text
            else fields w0 field).
Proof.
  induction typed as [|c typed IH]; intros response w0 w Hm Hall; cbv zeta.
  - cbn [map app string_of_list_ascii].
    destruct (input_loop_key field prompt response CursesApp.nl rest w)
      as [w1 [Hm1 ->]].
    replace (response ++ "") with response
      by (clear; induction response as [|x a IH]; simpl;
          [|rewrite <- IH]; reflexivity).
    rewrite String.eqb_refl. split; [reflexivity|].
    apply (Field_set_fields field (VStr response) w0 w1).
    eapply same_machine_trans; eassumption.
  - inversion Hall as [|c' l Hc Hrest]; subst.
    cbn [map app].
    destruct (input_loop_key field prompt response (String c "")
                (map (fun c => CursesApp.Key (String c "")) typed
                 ++ CursesApp.Key CursesApp.nl :: rest) w)
      as [w1 [Hm1 ->]].
    assert (Hnl : String.eqb (String c "") CursesApp.nl = false).
    { unfold CursesApp.nl. simpl.
      destruct (Ascii.eqb c "010") eqn:E; [|reflexivity].
      apply Ascii.eqb_eq in E. contradiction. }
    rewrite Hnl.
    assert (Hbs : String.eqb (String c "") "KEY_BACKSPACE" = false).
    { simpl. destruct (Ascii.eqb c "K"); reflexivity. }
    rewrite Hbs. simpl Str.len. simpl Nat.eqb. cbv zeta. cbv iota.
    simpl string_of_list_ascii.
    rewrite <- (append_assoc_cons response c (string_of_list_ascii typed)).
    apply IH; [|exact Hrest].
    eapply same_machine_trans; eassumption.
Qed.

(** Typing characters and then Enter makes [input] call [set] with the
    text shown at the start followed by the characters typed: the field
    holds that text, as a string, when its validator accepts it, and is
    unchanged otherwise; no other field changes and the events after
    Enter are left unread. *)
Theorem input_stores_typed_text (field : Profile.name) (prompt : string)
    (typed : list ascii) (rest : list CursesApp.Event) (w : World) :
  Forall (fun c => c <> "010"%char) typed ->
  let text := Field.get_str (Profile.field (fields w) field)
              ++ string_of_list_ascii typed in
  let r := CursesApp.input field prompt
             (map (fun c => CursesApp.Key (String c "")) typed
              ++ CursesApp.Key CursesApp.nl :: rest) w in
  fst r = (CursesApp.Returned tt, rest)
  /\ fields (snd r)
     = Profile.update (fields w) field
         (if fst (Profile.validator field text) then VStr text
          else fields w field).
Proof.
  intros Hall. cbv zeta. unfold CursesApp.input.
  apply (input_loop_typed field prompt rest typed _ w w);
    [apply same_machine_refl|exact Hall].
Qed.

(** Typing [5] and Enter at the minimum size: the integer 10000000000 becomes the string [100000000005]. *)
Lemma input_stores_typed_text_witness :
  let w := boot (fun _ => Missing) (fun _ => None) 24 80 in
  let r := CursesApp.input Profile.min_device_bytes "p"
             [CursesApp.Key "5"; CursesApp.Key CursesApp.nl] w in
  Forall (fun c => c <> "010"%char) ["5"%char]
  /\ fields w Profile.min_device_bytes = VInt 10000000000
  /\ fields (snd r) Profile.min_device_bytes = VStr "100000000005".
Proof.
  cbv zeta.
  assert (H : Forall (fun c => c <> "010"%char) ["5"%char]).
  { constructor; [discriminate|constructor]. }
  split; [exact H|]. split; [reflexivity|].
  change [CursesApp.Key "5"; CursesApp.Key CursesApp.nl]
    with (map (fun c => CursesApp.Key (String c "")) ["5"%char]
          ++ CursesApp.Key CursesApp.nl :: [])%list.
  rewrite (proj2 (input_stores_typed_text Profile.min_device_bytes "p"
                    ["5"%char] []
                    (boot (fun _ => Missing) (fun _ => None) 24 80) H)).
  reflexivity.
Defined.



(** ** The lists the interface selects from *)

Lemma select_index_in_range (validator : CursesApp.Validator)
    (prompt : string) (items : list string) (headings : option string)
    (events : list CursesApp.Event) (w : World) (i : Z)
    (rest : list CursesApp.Event) (w' : World) :
  CursesApp.select validator prompt items headings 0 events w
    = (CursesApp.Returned (Some i), rest, w') ->
  exists item, CursesApp.index items i = Some item /\ In item items.
Proof.
  unfold CursesApp.select.
  destruct items as [|first others]; [discriminate|].
  cbn [length Nat.leb].
  intros H. apply select_loop_accepted in H; [|simpl length; lia].
  destruct H as [Hi [item [_ [_ [Hidx _]]]]].
  exists item. split; [exact Hidx|].
  rewrite (proj1 (index_in_range _ i Hi)) in Hidx.
  eapply nth_error_In. exact Hidx.
Qed.

(** The path [CursesApp.get_device] returns is the first word of one of
    the lines [lsblk] printed below its heading. *)
Theorem get_device_returns_listed_path
    (interactive_device_validator : Value -> CursesApp.Validator)
    (min_bytes : Value) (events : list CursesApp.Event) (w : World)
    (path : string) (rest : list CursesApp.Event) (w' : World) :
  CursesApp.get_device interactive_device_validator min_bytes events w
    = (CursesApp.Returned (Some path), rest, w') ->
  exists out line more,
    commands w ["lsblk"; "--nodeps"; "--output";
                "path,size,rm,ro,pttype,ptuuid"] = Some out
    /\ In line (tl (Str.splitlines out))
    /\ Str.split line = path :: more.
Proof.
  unfold CursesApp.get_device.
  destruct (commands w _) as [out|]; [|discriminate].
  destruct (negb (Str.truth out)); [discriminate|].
  destruct (Str.splitlines out) as [|heading [|first others]] eqn:Esl;
    try discriminate.
  destruct (CursesApp.select _ _ _ _ _ _ _) as [[[[i|]|e|] rest1] w1] eqn:E;
    try discriminate.
  apply select_index_in_range in E. destruct E as [line [Hidx Hin]].
  rewrite Hidx.
  destruct (Str.split line) as [|p more] eqn:Es; [discriminate|].
  intros H. inversion H. subst.
  exists out, line, more. split; [reflexivity|].
  rewrite Esl. split; assumption.
Qed.

(** With two devices listed: down, then Enter, returns the second path. *)
Lemma get_device_returns_listed_path_witness :
  let cmds := fun _ : list string =>
    Some ("PATH SIZE" ++ CursesApp.nl ++ "/dev/sda 100G"
          ++ CursesApp.nl ++ "/dev/sdb 2T") in
  let w := boot (fun _ => Missing) cmds 24 80 in
  fst (CursesApp.get_device
         (fun _ : Value => CursesApp.lift Field.default_validator)
         (VInt 10000000000)
         [CursesApp.Key "j"; CursesApp.Key CursesApp.nl] w)
  = (CursesApp.Returned (Some "/dev/sdb"), [])
  /\ exists out line more,
       cmds ["lsblk"; "--nodeps"; "--output";
             "path,size,rm,ro,pttype,ptuuid"] = Some out
       /\ In line (tl (Str.splitlines out))
       /\ Str.split line = "/dev/sdb" :: more.
Proof.
  cbv zeta. split; [reflexivity|].
  refine (get_device_returns_listed_path
            (fun _ : Value => CursesApp.lift Field.default_validator)
            (VInt 10000000000)
            [CursesApp.Key "j"; CursesApp.Key CursesApp.nl]
            (boot (fun _ => Missing)
               (fun _ : list string =>
                  Some ("PATH SIZE" ++ CursesApp.nl ++ "/dev/sda 100G"
                        ++ CursesApp.nl ++ "/dev/sdb 2T")) 24 80)
            "/dev/sdb" [] _ _).
  reflexivity.
Defined.

(** The time zone [get_time_zone] returns is one of the lines
    [timedatectl] printed. *)
Theorem get_time_zone_returns_listed_zone (events : list CursesApp.Event)
    (w : World) (tz : string) (rest : list CursesApp.Event) (w' : World) :
  CursesApp.get_time_zone events w
    = (CursesApp.Returned (Some tz), rest, w') ->
  exists out,
    commands w ["timedatectl"; "list-timezones"; "--no-pager"] = Some out
    /\ In tz (Str.splitlines out).
Proof.
  unfold CursesApp.get_time_zone.
  destruct (commands w _) as [out|]; [|discriminate].
  destruct (negb (Str.truth out)); [discriminate|].
  destruct (CursesApp.select _ _ _ _ _ _ _) as [[[[i|]|e|] rest1] w1] eqn:E;
    try discriminate.
  apply select_index_in_range in E. destruct E as [line [Hidx Hin]].
  cbv zeta. rewrite Hidx. intros H. inversion H. subst.
  exists out. split; [reflexivity|assumption].
Qed.

(** With two time zones listed: down, then confirm, returns the second. *)
Lemma get_time_zone_returns_listed_zone_witness :
  let cmds := fun _ : list string =>
    Some ("Africa/Abidjan" ++ CursesApp.nl ++ "Europe/Paris") in
  let w := boot (fun _ => Missing) cmds 24 80 in
  fst (CursesApp.get_time_zone
         [CursesApp.Key "j"; CursesApp.Key ";"] w)
  = (CursesApp.Returned (Some "Europe/Paris"), [])
  /\ exists out,
       cmds ["timedatectl"; "list-timezones"; "--no-pager"] = Some out
       /\ In "Europe/Paris" (Str.splitlines out).
Proof.
  cbv zeta. split; [reflexivity|].
  refine (get_time_zone_returns_listed_zone
            [CursesApp.Key "j"; CursesApp.Key ";"]
            (boot (fun _ => Missing)
               (fun _ : list string =>
                  Some ("Africa/Abidjan" ++ CursesApp.nl ++ "Europe/Paris"))
               24 80)
            "Europe/Paris" [] _ _).
  reflexivity.
Defined.

(** ** What [interactive_conf] hands back *)

Section Configured.

Variable interactive_device_validator : Value -> CursesApp.Validator.

(** The menu loop breaks only with a device in the profile. *)
Lemma menu_loop_device_set (fuel : nat) :
  forall profile c events w p rest w',
    menu_loop interactive_device_validator fuel profile c events w
      = (CursesApp.Returned (Some p), rest, w') ->
    device_is_set p w' = true.
Proof.
  induction fuel as [|fuel IH]; intros profile c events w p rest w';
    [discriminate|].
  simpl. unfold and_then, done.
  destruct (CursesApp.select _ _ _ _ _ _ _) as [[[[ci|]|e|] rest1] w1];
    try discriminate.
  destruct (ci =? 10)%Z.
  - destruct (device_is_set profile w1) eqn:Eset.
    + intros H. inversion H. subst. exact Eset.
    + destruct (choose_device _ _ _ _) as [[[[]|e|] rest2] w2];
        try discriminate.
      destruct (device_is_set profile w2) eqn:Eset2.
      * intros H. inversion H. subst. exact Eset2.
      * apply IH.
  - destruct (dispatch _ profile ci rest1 w1) as [[[q|e|] rest2] w2];
      try discriminate.
    apply IH.
Qed.

Lemma init_good (w : World) :
  CursesApp.good (fst (CursesApp.__init__ w)) = true ->
  CursesApp.clean (fst (CursesApp.__init__ w)) = false.
Proof.
  unfold CursesApp.__init__.
  destruct ((LINES (call _ w) <? CursesApp.min_lines)
            || (COLS (call _ w) <? CursesApp.min_cols))%Z;
    [discriminate|reflexivity].
Qed.

(** When [interactive_conf] returns a profile, the profile has a device,
    and the session has been cleaned up: the calls that give the
    terminal back are the last calls made. *)
Theorem interactive_conf_returns_configured (profile : Profile.t)
    (events : list CursesApp.Event) (w : World) (p : Profile.t)
    (rest : list CursesApp.Event) (app : CursesApp.t) (w' : World) :
  interactive_conf interactive_device_validator profile events w
    = (CursesApp.Returned (Some p), rest, (app, w')) ->
  device_is_set p w' = true
  /\ CursesApp.clean app = true
  /\ CursesApp.good app = false
  /\ exists before, calls w' = (before ++ restores)%list.
Proof.
  unfold interactive_conf.
  pose proof (init_good w) as Hclean.
  destruct (CursesApp.__init__ w) as [app0 w0]. simpl in Hclean.
  destruct (CursesApp.good app0) eqn:Egood; cbn [negb]; [|discriminate].
  specialize (Hclean eq_refl).
  destruct (menu_loop _ _ _ _ _ _) as [[[[q|]|e|] rest1] w1] eqn:E;
    try discriminate.
  apply menu_loop_device_set in E.
  destruct app0 as [g c geo]. simpl in Hclean. subst c.
  unfold CursesApp.cleanup. cbn [CursesApp.clean negb].
  intros H. inversion H. subst. clear H.
  split; [exact E|]. split; [reflexivity|]. split; [reflexivity|].
  exists (calls w1). reflexivity.
Qed.

(** When [interactive_conf] does not return a profile from a terminal
    that is large enough, it has not cleaned up: the terminal is given
    back by the exit handler, and only then. *)
Theorem interactive_conf_leaves_cleanup_to_exit (profile : Profile.t)
    (events : list CursesApp.Event) (w : World) :
  (12 <= LINES w)%Z -> (44 <= COLS w)%Z ->
  let r := interactive_conf interactive_device_validator profile events w in
  (forall p, fst (fst r) <> CursesApp.Returned (Some p)) ->
  CursesApp.clean (fst (snd r)) = false
  /\ CursesApp.clean (fst (at_exit (snd r))) = true
  /\ calls (snd (at_exit (snd r)))
     = (calls (snd (snd r)) ++ restores)%list.
Proof.
  intros HL HC. cbv zeta. unfold interactive_conf, CursesApp.__init__.
  assert (Hsize : ((LINES w <? CursesApp.min_lines)
                   || (COLS w <? CursesApp.min_cols))%Z = false).
  { unfold CursesApp.min_lines, CursesApp.min_cols.
    destruct (Z.ltb_spec (LINES w) 12); [lia|].
    destruct (Z.ltb_spec (COLS w) 44); [lia|]. reflexivity. }
  cbn [LINES COLS call]. rewrite Hsize. cbn [negb CursesApp.good].
  destruct (menu_loop _ _ _ _ _ _) as [[[[q|]|e|] rest1] w1];
    intros Hnot; simpl.
  - exfalso. apply (Hnot q). reflexivity.
  - repeat split.
  - repeat split.
  - repeat split.
Qed.

End Configured.

(** With a device already chosen: down to [Begin Installation] and confirm. *)
Lemma interactive_conf_returns_configured_witness :
  let w := snd (Field_set Profile.device (VStr "/dev/sda")
                  (boot (fun _ => Missing) (fun _ => None) 24 80)) in
  let r := interactive_conf
             (fun _ : Value => CursesApp.lift Field.default_validator)
             Profile.__init__
             [CursesApp.Key "k"; CursesApp.Key "j"; CursesApp.Key "j";
              CursesApp.Key "j"; CursesApp.Key "j"; CursesApp.Key "j";
              CursesApp.Key "j"; CursesApp.Key "j"; CursesApp.Key "j";
              CursesApp.Key "j"; CursesApp.Key "j"; CursesApp.Key ";"] w in
  r = (CursesApp.Returned (Some Profile.__init__), [], snd r)
  /\ device_is_set Profile.__init__ (snd (snd r)) = true
  /\ CursesApp.clean (fst (snd r)) = true.
Proof.
  cbv zeta.
  match goal with
  | |- ?r = (?o, ?rest, snd ?r) /\ _ =>
      assert (H : r = (o, rest, (fst (snd r), snd (snd r))))
        by (vm_compute; reflexivity);
      split; [vm_compute; reflexivity|];
      exact ((fun H0 => conj (proj1 H0) (proj1 (proj2 H0)))
               (interactive_conf_returns_configured _ _ _ _ _ _ _ _ H))
  end.
Defined.

(** The quit key at the menu: [None], and a session not yet cleaned. *)
Lemma interactive_conf_leaves_cleanup_to_exit_witness :
  let w := boot (fun _ => Missing) (fun _ => None) 24 80 in
  let r := interactive_conf
             (fun _ : Value => CursesApp.lift Field.default_validator)
             Profile.__init__ [CursesApp.Key "q"] w in
  (12 <= LINES w)%Z /\ (44 <= COLS w)%Z
  /\ fst r = (CursesApp.Returned None, [])
  /\ CursesApp.clean (fst (snd r)) = false
  /\ CursesApp.clean (fst (at_exit (snd r))) = true.
Proof.
  cbv zeta. split; [simpl; lia|]. split; [simpl; lia|].
  split; [reflexivity|].
  refine ((fun H => conj (proj1 H) (proj1 (proj2 H)))
            (interactive_conf_leaves_cleanup_to_exit
               (fun _ : Value => CursesApp.lift Field.default_validator)
               Profile.__init__ [CursesApp.Key "q"]
               (boot (fun _ => Missing) (fun _ => None) 24 80)
               ltac:(simpl; lia) ltac:(simpl; lia) _)).
  intros p. discriminate.
Defined.

(** ** Device selection without the interface *)

Lemma only_publishes_refl (w : World) : only_publishes w w.
Proof. split; [apply publishes_refl|reflexivity]. Qed.

Lemma only_publishes_trans (w1 w2 w3 : World) :
  only_publishes w1 w2 -> only_publishes w2 w3 -> only_publishes w1 w3.
Proof.
  intros [A1 A2] [B1 B2]. split; [eapply publishes_trans; eassumption|].
  congruence.
Qed.

Lemma only_publishes_set_log (more : list Message) (w : World) :
  only_publishes w (set_log (log w ++ more)%list w).
Proof. split; [apply publishes_set_log|reflexivity]. Qed.

Lemma is_device_valid_publishes (dev_path : string) (min_size : Z)
    (w : World) :
  only_publishes w (snd (is_device_valid dev_path min_size w)).
Proof.
  unfold is_device_valid.
  destruct (commands w _) as [dev_info|]; [|apply only_publishes_set_log].
  destruct (negb (Str.truth dev_info)); [apply only_publishes_set_log|].
  destruct (Str.split dev_info) as [|given [|dev_size more]];
    try apply only_publishes_set_log.
  destruct (negb (String.eqb dev_path given));
    [apply only_publishes_set_log|].
  destruct (Int.of_str dev_size) as [size|]; [|apply only_publishes_refl].
  destruct (size <? min_size)%Z; [|apply only_publishes_refl].
  destruct (Int.to_str min_size);
    first [apply only_publishes_set_log|apply only_publishes_refl].
Qed.

(** [is_device_valid] answers true exactly on a device large enough, and
    then it publishes nothing. *)
Lemma is_device_valid_true (dev_path : string) (min_size : Z) (w : World) :
  (exists w', is_device_valid dev_path min_size w = (Fine true, w'))
  <-> large_enough (commands w) dev_path min_size.
Proof.
  unfold is_device_valid, large_enough. split.
  - intros [w' H].
    destruct (commands w _) as [dev_info|] eqn:Ec; [|discriminate].
    destruct (negb (Str.truth dev_info)); [discriminate|].
    destruct (Str.split dev_info) as [|given [|dev_size more]] eqn:Es;
      try discriminate.
    destruct (String.eqb dev_path given) eqn:Eg; [|discriminate].
    apply String.eqb_eq in Eg. subst given. simpl in H.
    destruct (Int.of_str dev_size) as [size|] eqn:Ei; [|discriminate].
    destruct (Z.ltb_spec size min_size).
    + destruct (Int.to_str min_size); discriminate.
    + exists dev_info, dev_size, more, size.
      split; [reflexivity|]. split; [exact Es|]. split; [exact Ei|lia].
  - intros [dev_info [dev_size [more [size [Hc [Hs [Hi Hm]]]]]]].
    rewrite Hc.
    assert (Ht : Str.truth dev_info = true).
    { destruct dev_info; [discriminate|reflexivity]. }
    rewrite Ht, Hs, String.eqb_refl, Hi. simpl.
    destruct (Z.ltb_spec size min_size); [lia|].
    exists w. reflexivity.
Qed.

Lemma device_lacks_partitions_publishes (dev_path : string) (w : World) :
  only_publishes w (snd (device_lacks_partitions dev_path w)).
Proof.
  unfold device_lacks_partitions, emit. cbn [fst snd].
  destruct (commands w _) as [parts|]; [|apply only_publishes_set_log].
  destruct (negb (Str.truth parts)); [apply only_publishes_set_log|].
  destruct (tl (Str.splitlines parts));
    first [apply only_publishes_refl|apply only_publishes_set_log].
Qed.

Lemma device_lacks_partitions_true (dev_path : string) (w : World) :
  (exists w', device_lacks_partitions dev_path w = (Some true, w'))
  <-> unpartitioned (commands w) dev_path.
Proof.
  unfold device_lacks_partitions, unpartitioned. split.
  - intros [w' H].
    destruct (commands w _) as [parts|] eqn:Ec; [|discriminate].
    destruct (Str.truth parts) eqn:Et; [|discriminate]. simpl in H.
    destruct (tl (Str.splitlines parts)) eqn:El; [|discriminate].
    exists parts. split; [reflexivity|].
    split; [apply truth_true_iff; exact Et|exact El].
  - intros [parts [Hc [Hne Hl]]]. rewrite Hc.
    apply truth_true_iff in Hne. rewrite Hne, Hl. simpl.
    exists w. reflexivity.
Qed.

Lemma get_device_loop_publishes (min_size : Z) (devices : list string) :
  forall w, only_publishes w (snd (get_device_loop devices min_size w)).
Proof.
  induction devices as [|d rest IH]; intros w;
    [apply only_publishes_refl|].
  cbn [get_device_loop].
  pose proof (is_device_valid_publishes d min_size w) as Hp.
  destruct (is_device_valid d min_size w) as [[[|]|] w1]; cbn [snd] in Hp.
  - pose proof (device_lacks_partitions_publishes d w1) as Hp1.
    destruct (device_lacks_partitions d w1) as [[[|]|] w2];
      cbn [snd] in Hp1; unfold emit; cbn [fst snd].
    + eapply only_publishes_trans; eassumption.
    + eapply only_publishes_trans; [exact Hp|].
      eapply only_publishes_trans; [exact Hp1|].
      eapply only_publishes_trans; [apply only_publishes_set_log|apply IH].
    + eapply only_publishes_trans; [exact Hp|].
      eapply only_publishes_trans; [exact Hp1|].
      eapply only_publishes_trans; [apply only_publishes_set_log|apply IH].
  - unfold emit. cbn [fst snd].
    eapply only_publishes_trans; [exact Hp|].
    eapply only_publishes_trans; [apply only_publishes_set_log|apply IH].
  - exact Hp.
Qed.

Lemma only_publishes_commands (w w' : World) :
  only_publishes w w' -> commands w' = commands w.
Proof. intros [[_ [H _]] _]. exact H. Qed.

(** The loop returns the first device that is suitable, and [None] when
    there is none. *)
Lemma get_device_loop_first (min_size : Z) (devices : list string) :
  forall w r w',
    get_device_loop devices min_size w = (Fine r, w') ->
    match r with
    | Some d =>
        exists before after,
          devices = (before ++ d :: after)%list
          /\ Forall (fun x => ~ suitable (commands w) min_size x) before
          /\ suitable (commands w) min_size d
    | None => Forall (fun x => ~ suitable (commands w) min_size x) devices
    end.
Proof.
  induction devices as [|d rest IH]; intros w r w'.
  - simpl. intros H. inversion H. constructor.
  - cbn [get_device_loop].
    pose proof (is_device_valid_publishes d min_size w) as Hp.
    pose proof (is_device_valid_true d min_size w) as Hv.
    destruct (is_device_valid d min_size w) as [[[|]|] w1]; cbn [snd] in Hp;
      [| |discriminate].
    + assert (Hlarge : large_enough (commands w) d min_size).
      { apply Hv. exists w1. reflexivity. }
      pose proof (device_lacks_partitions_publishes d w1) as Hp1.
      pose proof (device_lacks_partitions_true d w1) as Hl.
      rewrite (only_publishes_commands _ _ Hp) in Hl.
      destruct (device_lacks_partitions d w1) as [[[|]|] w2] eqn:Ed;
        cbn [snd] in Hp1.
      * intros H. inversion H. subst. exists [], rest.
        split; [reflexivity|]. split; [constructor|].
        split; [exact Hlarge|]. apply Hl. eexists. reflexivity.
      * unfold emit. cbn [fst snd]. intros H. apply IH in H.
        assert (Hc : commands
                       (set_log (log w2 ++ snd (info
                          ("Formatting a device that already contains partitions will result in irreversible data loss!"
                           ++ CursesApp.nl ++ String "009" (String "009"
                           "Explicit permission (via interactive mode) is required to format a device with existing partitions"))))%list w2)
                     = commands w).
        { cbn [commands set_log].
          rewrite (only_publishes_commands _ _ Hp1).
          apply (only_publishes_commands _ _ Hp). }
        rewrite Hc in H.
        assert (Hnot : ~ suitable (commands w) min_size d).
        { intros [_ Hu]. apply Hl in Hu. destruct Hu as [w3 Hu].
          discriminate. }
        destruct r as [x|].
        -- destruct H as [before [after [Hd [Hb Hs]]]].
           exists (d :: before), after. rewrite Hd.
           split; [reflexivity|]. split; [|exact Hs].
           constructor; assumption.
        -- constructor; assumption.
      * unfold emit. cbn [fst snd]. intros H. apply IH in H.
        assert (Hc : commands
                       (set_log (log w2 ++ snd (info
                          ("Formatting a device that already contains partitions will result in irreversible data loss!"
                           ++ CursesApp.nl ++ String "009" (String "009"
                           "Explicit permission (via interactive mode) is required to format a device with existing partitions"))))%list w2)
                     = commands w).
        { cbn [commands set_log].
          rewrite (only_publishes_commands _ _ Hp1).
          apply (only_publishes_commands _ _ Hp). }
        rewrite Hc in H.
        assert (Hnot : ~ suitable (commands w) min_size d).
        { intros [_ Hu]. apply Hl in Hu. destruct Hu as [w3 Hu].
          discriminate. }
        destruct r as [x|].
        -- destruct H as [before [after [Hd [Hb Hs]]]].
           exists (d :: before), after. rewrite Hd.
           split; [reflexivity|]. split; [|exact Hs].
           constructor; assumption.
        -- constructor; assumption.
    + unfold emit. cbn [fst snd]. intros H. apply IH in H.
      assert (Hc : commands
                     (set_log (log w1 ++ snd (info
                        ("The minimum requirements for installation were not met by device: "
                         ++ d)))%list w1)
                   = commands w).
      { cbn [commands set_log]. apply (only_publishes_commands _ _ Hp). }
      rewrite Hc in H.
      assert (Hnot : ~ suitable (commands w) min_size d).
      { intros [Hu _]. apply Hv in Hu. destruct Hu as [w3 Hu].
        discriminate. }
      destruct r as [x|].
      * destruct H as [before [after [Hd [Hb Hs]]]].
        exists (d :: before), after. rewrite Hd.
        split; [reflexivity|]. split; [|exact Hs].
        constructor; assumption.
      * constructor; assumption.
Qed.

(** The device [get_device] returns is one [lsblk] lists, its reported
    size is an integer of at least the minimum, and [lsblk] lists no
    partition below it. *)
Theorem get_device_returns_suitable (min_size : Z) (w : World)
    (d : string) (w' : World) :
  get_device min_size w = (Fine (Some d), w') ->
  (exists listing,
     commands w ["lsblk"; "--noheadings"; "--nodeps"; "--output"; "path"]
     = Some listing
     /\ In d (Str.splitlines listing))
  /\ large_enough (commands w) d min_size
  /\ unpartitioned (commands w) d.
Proof.
  unfold get_device, list_all_devices.
  destruct (commands w _) as [listing|] eqn:Ec; [|discriminate].
  destruct (Str.truth listing); [|discriminate].
  destruct (Str.splitlines listing) as [|d0 rest] eqn:El; [discriminate|].
  intros H. apply get_device_loop_first in H.
  destruct H as [before [after [Hd [_ [Hlarge Hun]]]]].
  split; [|split; assumption].
  exists listing. split; [reflexivity|].
  rewrite El, Hd. apply in_or_app. right. left. reflexivity.
Qed.

(** On the machine with two disks the empty disk is chosen. *)
Lemma get_device_returns_suitable_witness :
  let w := boot (fun _ => Missing) two_disks 24 80 in
  fst (get_device 10000000000 w) = Fine (Some "/dev/sdb")
  /\ large_enough two_disks "/dev/sdb" 10000000000
  /\ unpartitioned two_disks "/dev/sdb".
Proof.
  cbv zeta. split; [vm_compute; reflexivity|].
  exact (proj2 (get_device_returns_suitable 10000000000
                  (boot (fun _ => Missing) two_disks 24 80) "/dev/sdb"
                  (snd (get_device 10000000000
                          (boot (fun _ => Missing) two_disks 24 80)))
                  ltac:(vm_compute; reflexivity))).
Defined.

(** [get_device] takes the devices in the order [lsblk] lists them:
    every device listed before the one it returns is too small, not
    reported, or partitioned, and when it returns [None] every listed
    device is. *)
Theorem get_device_prefers_first (min_size : Z) (w : World)
    (r : option string) (w' : World) (listing : string) :
  get_device min_size w = (Fine r, w') ->
  commands w ["lsblk"; "--noheadings"; "--nodeps"; "--output"; "path"]
  = Some listing ->
  match r with
  | Some d =>
      exists before after,
        Str.splitlines listing = (before ++ d :: after)%list
        /\ Forall (fun x => ~ suitable (commands w) min_size x) before
  | None =>
      Forall (fun x => ~ suitable (commands w) min_size x)
        (Str.splitlines listing)
  end.
Proof.
  unfold get_device, list_all_devices. intros H Hc. rewrite Hc in H.
  destruct listing as [|c listing'].
  - simpl in H. inversion H. constructor.
  - cbn [Str.truth] in H.
    destruct (Str.splitlines (String c listing')) as [|d0 rest] eqn:El.
    + simpl in H. inversion H. constructor.
    + apply get_device_loop_first in H.
      destruct r as [d|]; [|exact H].
      destruct H as [before [after [Hd [Hb _]]]].
      exists before, after. split; assumption.
Qed.

(** On the machine with two disks the partitioned disk, listed first, is passed over. *)
Lemma get_device_prefers_first_witness :
  let w := boot (fun _ => Missing) two_disks 24 80 in
  fst (get_device 10000000000 w) = Fine (Some "/dev/sdb")
  /\ exists before after,
       Str.splitlines ("/dev/sda" ++ CursesApp.nl ++ "/dev/sdb")
       = (before ++ "/dev/sdb" :: after)%list
       /\ Forall (fun x => ~ suitable two_disks 10000000000 x) before.
Proof.
  cbv zeta. split; [vm_compute; reflexivity|].
  exact (get_device_prefers_first 10000000000
           (boot (fun _ => Missing) two_disks 24 80) (Some "/dev/sdb")
           (snd (get_device 10000000000
                   (boot (fun _ => Missing) two_disks 24 80)))
           ("/dev/sda" ++ CursesApp.nl ++ "/dev/sdb")
           ltac:(vm_compute; reflexivity) eq_refl).
Defined.

(** Whatever [get_device] comes back with, a device, [None] or a
    [ValueError], it has only published messages: no field is set, no
    file written, no curses call made and no message taken off the
    queue. *)
Theorem get_device_only_publishes (min_size : Z) (w : World) :
  only_publishes w (snd (get_device min_size w)).
Proof.
  unfold get_device, list_all_devices, emit. cbn [fst snd].
  destruct (commands w _) as [listing|].
  - destruct (Str.truth listing).
    + destruct (Str.splitlines listing) as [|d0 rest].
      * apply only_publishes_set_log.
      * apply get_device_loop_publishes.
    + eapply only_publishes_trans; apply only_publishes_set_log.
  - eapply only_publishes_trans; apply only_publishes_set_log.
Qed.

(** ** The package list *)

Lemma chars_append (a b : string) :
  Str.chars (a ++ b) = (Str.chars a ++ Str.chars b)%list.
Proof.
  unfold Str.chars. induction a as [|c a IH]; simpl; [|rewrite IH];
    reflexivity.
Qed.

Lemma append_empty (s : string) : s ++ "" = s.
Proof. induction s as [|c s IH]; simpl; [|rewrite IH]; reflexivity. Qed.

Lemma chars_reverse (s : string) :
  Str.chars (reverse s) = List.rev (Str.chars s).
Proof.
  unfold reverse, Str.chars. apply list_ascii_of_string_of_list_ascii.
Qed.

Lemma reverse_involutive (s : string) : reverse (reverse s) = s.
Proof.
  unfold reverse. rewrite list_ascii_of_string_of_list_ascii, rev_involutive.
  apply string_of_list_ascii_of_string.
Qed.

Lemma reverse_snoc (s : string) (c : ascii) :
  reverse (s ++ String c "") = String c (reverse s).
Proof.
  unfold reverse.
  change (list_ascii_of_string (s ++ String c ""))
    with (Str.chars (s ++ String c "")).
  rewrite chars_append. simpl. rewrite rev_app_distr. reflexivity.
Qed.

Lemma lstrip_by_clean (white : ascii -> bool) (s : string) :
  Forall (fun c => white c = false) (Str.chars s) ->
  lstrip_by white s = s.
Proof.
  destruct s as [|c s]; [reflexivity|]. intros H. inversion H; subst.
  simpl. rewrite H2. reflexivity.
Qed.

Lemma lstrip_by_clean_append (white : ascii -> bool) (s t : string) :
  s <> "" -> Forall (fun c => white c = false) (Str.chars s) ->
  lstrip_by white (s ++ t) = s ++ t.
Proof.
  destruct s as [|c s]; [intros H; contradiction|]. intros _ H.
  inversion H; subst. simpl. rewrite H2. reflexivity.
Qed.

(** [strip] leaves a package name as it is, and takes the line feed off
    the line that holds one. *)
Lemma strip_name (p : string) : package_name p -> strip p = p.
Proof.
  intros [_ Hp]. unfold strip, strip_by.
  rewrite (lstrip_by_clean _ p Hp).
  rewrite lstrip_by_clean; [apply reverse_involutive|].
  rewrite chars_reverse. apply Forall_rev. exact Hp.
Qed.

Lemma strip_line (p : string) :
  package_name p -> strip (p ++ String lf "") = p.
Proof.
  intros [Hne Hp]. unfold strip, strip_by.
  rewrite (lstrip_by_clean_append _ p _ Hne Hp).
  rewrite reverse_snoc. simpl.
  rewrite lstrip_by_clean; [apply reverse_involutive|].
  rewrite chars_reverse. apply Forall_rev. exact Hp.
Qed.

Lemma lines_from_name (p : string) :
  forall cur s,
    Forall (fun c => Str.space c = false) (Str.chars p) ->
    lines_from cur (p ++ s) = lines_from (cur ++ p) s.
Proof.
  induction p as [|c p IH]; intros cur s Hp.
  - simpl. rewrite append_empty. reflexivity.
  - inversion Hp as [|c' l Hc Hrest]; subst. simpl.
    assert (Hlf : Ascii.eqb c lf = false).
    { destruct (Ascii.eqb c lf) eqn:E; [|reflexivity].
      apply Ascii.eqb_eq in E. subst c. discriminate. }
    assert (Hcr : Ascii.eqb c cr = false).
    { destruct (Ascii.eqb c cr) eqn:E; [|reflexivity].
      apply Ascii.eqb_eq in E. subst c. discriminate. }
    rewrite Hlf, Hcr, IH by exact Hrest.
    rewrite append_assoc_cons. reflexivity.
Qed.

(** Reading back what [join] wrote gives the names again. *)
Lemma lines_of_join (packages : list string) :
  Forall package_name packages ->
  map strip (lines_from "" (join (String lf "") packages)) = packages.
Proof.
  induction packages as [|p rest IH]; intros Hall; [reflexivity|].
  inversion Hall as [|p' l Hp Hrest]; subst.
  destruct rest as [|q rest].
  - simpl join. rewrite <- (append_empty p) at 1.
    rewrite lines_from_name by apply Hp. simpl.
    destruct Hp as [Hne Hp0].
    rewrite (proj2 (truth_true_iff p) Hne). simpl.
    rewrite strip_name by (split; assumption). reflexivity.
  - change (join (String lf "") (p :: q :: rest))
      with (p ++ String lf (join (String lf "") (q :: rest))).
    rewrite lines_from_name by apply Hp.
    cbn [lines_from]. rewrite Ascii.eqb_refl.
    cbn [map append]. rewrite strip_line by exact Hp.
    rewrite IH by exact Hrest. reflexivity.
Qed.

(** A list of package names written by [dump_packages] is read back by
    [load_packages] as it was. *)
Theorem packages_round_trip (packages : list string) (path : string)
    (disk : string -> TextFile) (w : World) :
  disk path <> Locked ->
  Forall package_name packages ->
  let written := dump_packages packages path disk w in
  fst (fst written) = true
  /\ snd written = w
  /\ load_packages path (snd (fst written)) w = (Some packages, w).
Proof.
  intros Hopen Hall. cbv zeta. unfold dump_packages, load_packages.
  destruct (disk path) eqn:E; [| contradiction |]; simpl;
    rewrite String.eqb_refl, lines_of_join by exact Hall;
    repeat split.
Qed.

(** Three packages written to a new file and read back. *)
Lemma packages_round_trip_witness :
  let disk := fun _ : string => Absent in
  let w := boot (fun _ => Missing) (fun _ => None) 24 80 in
  let written := dump_packages ["base"; "linux"; "man-db"] "packages"
                   disk w in
  snd (fst written) "packages"
  = Text ("base" ++ CursesApp.nl ++ "linux" ++ CursesApp.nl ++ "man-db")
  /\ load_packages "packages" (snd (fst written)) w
     = (Some ["base"; "linux"; "man-db"], w).
Proof.
  cbv zeta. split; [reflexivity|].
  refine (proj2 (proj2 (packages_round_trip ["base"; "linux"; "man-db"]
                          "packages" (fun _ : string => Absent)
                          (boot (fun _ => Missing) (fun _ => None) 24 80)
                          _ _))).
  - discriminate.
  - repeat constructor; discriminate.
Defined.

(** [dump_packages] changes no path but the one it is given; it fails
    exactly when that path cannot be opened, and then it changes no file
    and publishes one error. [load_packages] changes nothing when it
    succeeds, and publishes one error when it fails. *)
Theorem package_list_effects (packages : list string) (path : string)
    (disk : string -> TextFile) (w : World) :
  let written := dump_packages packages path disk w in
  let read := load_packages path disk w in
  (forall p, p <> path -> snd (fst written) p = disk p)
  /\ (fst (fst written) = false <-> disk path = Locked)
  /\ (fst (fst written) = false -> snd (fst written) = disk)
  /\ only_publishes w (snd written)
  /\ only_publishes w (snd read)
  /\ (fst read = None <-> forall content, disk path <> Text content)
  /\ (fst read <> None -> snd read = w).
Proof.
  cbv zeta. unfold dump_packages, load_packages, emit. cbn [fst snd].
  destruct (disk path) eqn:E; cbn [fst snd].
  - split.
    { intros p Hp. destruct (String.eqb p path) eqn:Ep; [|reflexivity].
      apply String.eqb_eq in Ep. contradiction. }
    split; [split; discriminate|]. split; [discriminate|].
    split; [apply only_publishes_refl|].
    split; [apply only_publishes_set_log|].
    split; [split; [intros _ content; discriminate|reflexivity]|].
    intros H. contradiction.
  - split; [reflexivity|].
    split; [split; reflexivity|]. split; [reflexivity|].
    split; [apply only_publishes_set_log|].
    split; [apply only_publishes_set_log|].
    split; [split; [intros _ content; discriminate|reflexivity]|].
    intros H. contradiction.
  - split.
    { intros p Hp. destruct (String.eqb p path) eqn:Ep; [|reflexivity].
      apply String.eqb_eq in Ep. contradiction. }
    split; [split; discriminate|]. split; [discriminate|].
    split; [apply only_publishes_refl|].
    split; [apply only_publishes_refl|].
    split; [|reflexivity].
    split; [discriminate|]. intros H. exfalso. apply (H content).
    reflexivity.
Qed.

(** ** Keys and sizes the interface does not accept *)



(** On a terminal below 12 lines or 44 columns [interactive_conf]
    returns [None] at once: no event is read and no field changes, the
    error that states the minimum size is published, and the session it
    leaves is already cleaned up. *)
Theorem interactive_conf_small_terminal
    (interactive_device_validator : Value -> CursesApp.Validator)
    (profile : Profile.t) (events : list CursesApp.Event) (w : World) :
  (LINES w < 12)%Z \/ (COLS w < 44)%Z ->
  let r := interactive_conf interactive_device_validator profile events w in
  fst r = (CursesApp.Returned None, events)
  /\ CursesApp.clean (fst (snd r)) = true
  /\ fields (snd (snd r)) = fields w
  /\ log (snd (snd r))
     = (log w ++ [{| raw := "  [Error] Min dim: 12x44.";
                     level := Message_Level.error |}])%list.
Proof.
  intros Hsmall. cbv zeta. unfold interactive_conf, CursesApp.__init__.
  assert (Hsize : ((LINES w <? CursesApp.min_lines)
                   || (COLS w <? CursesApp.min_cols))%Z = true).
  { unfold CursesApp.min_lines, CursesApp.min_cols.
    apply orb_true_iff.
    destruct Hsmall as [H|H]; [left|right]; apply Z.ltb_lt; exact H. }
  cbn [LINES COLS call]. rewrite Hsize.
  repeat split.
Qed.

(** A terminal of 10 lines: the key waiting is not read. *)
Lemma interactive_conf_small_terminal_witness :
  let w := boot (fun _ => Missing) (fun _ => None) 10 80 in
  let r := interactive_conf
             (fun _ : Value => CursesApp.lift Field.default_validator)
             Profile.__init__ [CursesApp.Key "j"] w in
  ((LINES w < 12)%Z \/ (COLS w < 44)%Z)
  /\ fst r = (CursesApp.Returned None, [CursesApp.Key "j"])
  /\ CursesApp.clean (fst (snd r)) = true.
Proof.
  cbv zeta.
  assert (H : (LINES (boot (fun _ => Missing) (fun _ => None) 10 80) < 12)%Z
              \/ (COLS (boot (fun _ => Missing) (fun _ => None) 10 80)
                  < 44)%Z) by (left; simpl; lia).
  split; [exact H|].
  exact ((fun H0 => conj (proj1 H0) (proj1 (proj2 H0)))
           (interactive_conf_small_terminal
              (fun _ : Value => CursesApp.lift Field.default_validator)
              Profile.__init__ [CursesApp.Key "j"]
              (boot (fun _ => Missing) (fun _ => None) 10 80) H)).
Defined.

(** ** The rows of the menu *)



Section Rows.

Variable interactive_device_validator : Value -> CursesApp.Validator.



End Rows.


(** ** Errors the interface meets *)

(** Without a heading and at least one device line from [lsblk], the
    interactive [get_device] returns [None] at once: no event is read,
    the validator is not consulted, and one error is published. *)
Theorem get_device_without_listing
    (interactive_device_validator : Value -> CursesApp.Validator)
    (min_bytes : Value) (events : list CursesApp.Event) (w : World) :
  (forall out,
     commands w ["lsblk"; "--nodeps"; "--output";
                 "path,size,rm,ro,pttype,ptuuid"] = Some out ->
     out = "" \/ (length (Str.splitlines out) < 2)%nat) ->
  let r := CursesApp.get_device interactive_device_validator min_bytes
             events w in
  fst r = (CursesApp.Returned None, events)
  /\ only_publishes w (snd r)
  /\ exists m, log (snd r) = (log w ++ [m])%list
               /\ level m = Message_Level.error.
Proof.
  intros H. cbv zeta. unfold CursesApp.get_device, emit. cbn [fst snd].
  destruct (commands w _) as [out|].
  - destruct (H out eq_refl) as [->|Hlen].
    + simpl. split; [reflexivity|].
      split; [apply only_publishes_set_log|].
      eexists. split; reflexivity.
    + destruct (negb (Str.truth out)).
      * split; [reflexivity|]. split; [apply only_publishes_set_log|].
        eexists. split; reflexivity.
      * destruct (Str.splitlines out) as [|heading [|first others]].
        -- split; [reflexivity|]. split; [apply only_publishes_set_log|].
           eexists. split; reflexivity.
        -- split; [reflexivity|]. split; [apply only_publishes_set_log|].
           eexists. split; reflexivity.
        -- simpl in Hlen. lia.
  - split; [reflexivity|]. split; [apply only_publishes_set_log|].
    eexists. split; reflexivity.
Qed.

(** When [lsblk] prints its heading and no device. *)
Lemma get_device_without_listing_witness :
  let w := boot (fun _ => Missing) (fun _ => Some "PATH SIZE") 24 80 in
  let r := CursesApp.get_device
             (fun _ : Value => CursesApp.lift Field.default_validator)
             (VInt 10000000000) [CursesApp.Key ";"] w in
  fst r = (CursesApp.Returned None, [CursesApp.Key ";"])
  /\ log (snd r)
     = [{| raw := "  [Error] Not enough devices listed.";
           level := Message_Level.error |}].
Proof.
  cbv zeta. split; [|reflexivity].
  refine (proj1 (get_device_without_listing
                   (fun _ : Value => CursesApp.lift Field.default_validator)
                   (VInt 10000000000) [CursesApp.Key ";"]
                   (boot (fun _ => Missing) (fun _ => Some "PATH SIZE")
                      24 80) _)).
  intros out E. inversion E. right. simpl. lia.
Defined.

Lemma frame_head_shape (prompt : string) (items : list string)
    (headings : option string) (cursor_index : Z) (w : World) :
  forallb is_draw (frame_head prompt items headings cursor_index) = true
  /\ CursesApp.frame prompt items headings cursor_index w
     = (frame_head prompt items headings cursor_index
        ++ CursesApp.log_steps (log w)
        ++ [CursesApp.Draw (curses.refresh curses.win)])%list.
Proof.
  unfold frame_head. split.
  - rewrite !forallb_app, item_steps_draw.
    destruct headings as [h|]; [destruct (Str.truth h)|]; reflexivity.
  - unfold CursesApp.frame. rewrite <- !app_assoc. reflexivity.
Qed.

(** A drawing that fails after its first calls has made those calls. *)
Lemma run_fault_after (head : list CursesApp.Step) :
  forallb is_draw head = true ->
  forall k rest w,
    CursesApp.run (Some (length head + k)) (head ++ rest) w
    = CursesApp.run (Some k) rest (CursesApp.run None head w).
Proof.
  induction head as [|[c|] head IH]; simpl; intros H k rest w;
    [reflexivity| |discriminate].
  apply IH. exact H.
Qed.

(** A curses error can lose a message. When drawing fails between taking
    a message off the queue and writing its text, the message is gone
    from the queue, the log file has it, and the screen never shows it:
    the last call made is the one that set its colour. *)
Theorem fault_loses_message (prompt : string) (items : list string)
    (headings : option string) (cursor_index : Z) (w : World)
    (m : Message) (later : list Message) :
  log w = m :: later ->
  let head := frame_head prompt items headings cursor_index in
  let w' := CursesApp.run (Some (length head + 1))
              (CursesApp.frame prompt items headings cursor_index w) w in
  log w' = later
  /\ log_file w'
     = option_map (fun written => (written ++ [log_line m])%list)
         (log_file w)
  /\ calls w'
     = (calls (CursesApp.run None head w)
        ++ [curses.bkgdset curses.win (CursesApp.color_of (level m))])%list.
Proof.
  intros Hlog. cbv zeta.
  destruct (frame_head_shape prompt items headings cursor_index w)
    as [Hdraw ->].
  rewrite (run_fault_after _ Hdraw).
  destruct (run_draws _ Hdraw w) as [Hl Hf].
  rewrite Hlog. simpl CursesApp.log_steps. cbn [app CursesApp.run].
  unfold get_next_log. rewrite Hl, Hlog, Hf. cbn [snd].
  split; [reflexivity|]. split; reflexivity.
Qed.

(** An error message queued when the frame is drawn: it leaves the queue and no call writes its text. *)
Lemma fault_loses_message_witness :
  let m := {| raw := "  [Error] Failed to select a device.";
              level := Message_Level.error |} in
  let w := set_log [m] (boot (fun _ => Missing) (fun _ => None) 24 80) in
  let w' := CursesApp.run (Some (length (frame_head "p" ["a"] None 0) + 1))
              (CursesApp.frame "p" ["a"] None 0 w) w in
  log w = [m] /\ log w' = []
  /\ existsb (fun c => match c with
                       | curses.addstr _ s =>
                           String.eqb s (raw m ++ CursesApp.nl)
                       | _ => false
                       end) (calls w') = false.
Proof.
  cbv zeta. split; [reflexivity|]. split; [|reflexivity].
  exact (proj1 (fault_loses_message "p" ["a"] None 0
                  (set_log [{| raw := "  [Error] Failed to select a device.";
                               level := Message_Level.error |}]
                     (boot (fun _ => Missing) (fun _ => None) 24 80))
                  {| raw := "  [Error] Failed to select a device.";
                     level := Message_Level.error |} [] eq_refl)).
Defined.
